(** * anki-mcp-server: the resource catalog, the tool dispatcher and the
      backend gateway of [src/index.ts]

    The development has three layers.

    - [Js]: the JavaScript data the server manipulates (JSON-like values,
      strings, the built-ins [parseInt], [String.prototype.replace],
      [Array.prototype.join], [JSON.stringify], template-literal
      conversion).
    - [Net]: asynchronous handlers as finite programs whose only effect is
      [fetch]; a handler either returns, throws, or performs a fetch and goes
      on with what the fetch produced.  [run] executes such a program
      against a backend given as a state machine and records the requests it
      received.
    - the server itself: [ankiRequest] and the three request handlers, under
      the names they carry in the source. *)

From Stdlib Require Import ZArith NArith List String Ascii Bool Lia Finite.
Import ListNotations.

Open Scope string_scope.

(* ================================================================== *)
(** * JavaScript values and built-ins *)
(* ================================================================== *)

Module Js.

(** Strings are sequences of code units; the model covers the code units
    below 256, one [ascii] each. *)

Definition dquote : ascii := "034"%char.
Definition backslash : ascii := "092"%char.

(** Numbers.  JavaScript numbers are IEEE doubles; the development covers
    the integer fragment.  [Int z] is the double whose value is the integer
    [z]; it is exact for [|z| <= MAX_SAFE_INTEGER], where [Number::toString]
    prints the plain decimal digits of [z] and where [parseInt] loses
    nothing.  Beyond that range a double rounds, and from [1e21] on it
    prints in exponent notation; statements that print or parse a number
    carry the bound. *)
Inductive number : Type :=
| NaN
| Int (z : Z).

Definition MAX_SAFE_INTEGER : N := 9007199254740991.

(** Values: what [response.json()] decodes and what the protocol layer
    hands to a handler, plus [undefined].  An object is its list of own
    properties in enumeration order (the order of [Object.entries]); the keys
    of an object are pairwise distinct. *)
#[warnings="-register-all"]
Inductive value : Type :=
| VUndefined
| VNull
| VBool (b : bool)
| VNum (n : number)
| VStr (s : string)
| VArr (items : list value)
| VObj (props : list (string * value)).

(** ** Strings *)

Fixpoint join (sep : string) (l : list string) : string :=
  match l with
  | [] => EmptyString
  | [x] => x
  | x :: rest => x ++ sep ++ join sep rest
  end.

Fixpoint drop (n : nat) (s : string) : string :=
  match n, s with
  | O, _ => s
  | S n', String _ rest => drop n' rest
  | S _, EmptyString => EmptyString
  end.

(** [s.startsWith(p)] *)
Definition startsWith (s p : string) : bool := prefix p s.

(** [s.replace(pat, rep)] for a string pattern: the first occurrence of
    [pat] is replaced, a string without occurrence is returned as it is.
    The server only passes the empty replacement, so the dollar patterns of
    the replacement text do not arise. *)
Fixpoint replace (pat rep s : string) : string :=
  if prefix pat s then rep ++ drop (length pat) s
  else match s with
       | EmptyString => s
       | String c rest => String c (replace pat rep rest)
       end.

(** ** Number to string *)

Definition digit_char (d : N) : ascii := ascii_of_N (48 + d).

(** Decimal digits of [n], most significant first, pushed in front of
    [acc]. One digit is produced per unit of fuel. *)
Fixpoint digits_loop (fuel : nat) (n : N) (acc : string) : string :=
  match fuel with
  | O => acc
  | S fuel' =>
      let acc' := String (digit_char (n mod 10)) acc in
      if (n / 10 =? 0)%N then acc' else digits_loop fuel' (n / 10) acc'
  end.

(** A number below [2 ^ k] has at most [k] decimal digits ([k >= 1]). *)
Definition N_to_decimal (n : N) : string :=
  digits_loop (S (N.to_nat (N.log2 n))) n EmptyString.

(** [Number::toString] on the integer fragment: the decimal digits, which
    is what the program prints for [|z| <= MAX_SAFE_INTEGER]. *)
Definition Number_toString (x : number) : string :=
  match x with
  | NaN => "NaN"
  | Int z =>
      if (z <? 0)%Z then String "-" (N_to_decimal (Z.to_N (- z)))
      else N_to_decimal (Z.to_N z)
  end.

(** ** parseInt *)

(** [StrWhiteSpaceChar] among the code units below 256: TAB, LF, VT, FF,
    CR, SP and NBSP. *)
Definition is_whitespace (c : ascii) : bool :=
  let n := N_of_ascii c in
  ((9 <=? n) && (n <=? 13) || (n =? 32) || (n =? 160))%N.

Fixpoint trim_start (s : string) : string :=
  match s with
  | String c rest => if is_whitespace c then trim_start rest else s
  | EmptyString => s
  end.

(** Value of [c] as a digit of the given radix (10 or 16 here). *)
Definition digit_value (radix : N) (c : ascii) : option N :=
  let n := N_of_ascii c in
  let v := if ((48 <=? n) && (n <=? 57))%N then Some (n - 48)%N
           else if ((97 <=? n) && (n <=? 122))%N then Some (n - 87)%N
           else if ((65 <=? n) && (n <=? 90))%N then Some (n - 55)%N
           else None in
  match v with
  | Some d => if (d <? radix)%N then Some d else None
  | None => None
  end.

(** The longest prefix of [s] made of digits, read in the radix; [acc] is
    [None] as long as no digit was seen. *)
Fixpoint scan_digits (radix : N) (s : string) (acc : option N) : option N :=
  match s with
  | EmptyString => acc
  | String c rest =>
      match digit_value radix c with
      | Some d =>
          scan_digits radix rest
            (Some (match acc with
                   | None => d
                   | Some a => a * radix + d
                   end)%N)
      | None => acc
      end
  end.

(** The value accumulated so far by [scan_digits]. *)
Definition acc_value (a : option N) : N :=
  match a with
  | None => 0%N
  | Some x => x
  end.

(** [parseInt(s)] without a radix argument: leading white space is skipped,
    a sign is read, [0x] or [0X] selects radix 16, and the longest digit
    prefix gives the value; no digit gives [NaN]. *)
Definition parseInt (s : string) : number :=
  let s1 := trim_start s in
  let '(negative, s2) :=
    match s1 with
    | String "-" rest => (true, rest)
    | String "+" rest => (false, rest)
    | _ => (false, s1)
    end in
  let '(radix, s3) :=
    match s2 with
    | String "0" (String "x" rest) => (16%N, rest)
    | String "0" (String "X" rest) => (16%N, rest)
    | _ => (10%N, s2)
    end in
  match scan_digits radix s3 None with
  | None => NaN
  | Some m => Int (if negative then - Z.of_N m else Z.of_N m)
  end.

(** ** Conversions *)

(** [ToBoolean], as used by [!v]. *)
Definition ToBoolean (v : value) : bool :=
  match v with
  | VUndefined | VNull => false
  | VBool b => b
  | VNum NaN => false
  | VNum (Int z) => negb (z =? 0)%Z
  | VStr s => negb (s =? EmptyString)
  | VArr _ | VObj _ => true
  end.

(** Does an object own the property [k]? *)
Fixpoint owns (k : string) (props : list (string * value)) : bool :=
  match props with
  | [] => false
  | (k', _) :: rest => (k =? k') || owns k rest
  end.

(** The results of a run of conversions, if none of them threw. *)
Fixpoint sequence {A : Type} (l : list (option A)) : option (list A) :=
  match l with
  | [] => Some []
  | Some a :: rest =>
      match sequence rest with
      | Some r => Some (a :: r)
      | None => None
      end
  | None :: _ => None
  end.

(** [ToString], as used by template literals; [None] is the [TypeError]
    it throws.  An array prints as its elements joined by a comma, [null]
    and [undefined] elements as the empty string.  A plain object prints as
    [[object Object]], through the [toString] it inherits; an object that
    owns a [toString] property cannot be converted: the property of a
    decoded value is not callable, and the inherited [valueOf] returns the
    object itself. *)
Fixpoint ToString (v : value) : option string :=
  match v with
  | VUndefined => Some "undefined"
  | VNull => Some "null"
  | VBool true => Some "true"
  | VBool false => Some "false"
  | VNum n => Some (Number_toString n)
  | VStr s => Some s
  | VArr items =>
      match
        (fix elems (l : list value) : option (list string) :=
           match l with
           | [] => Some []
           | x :: rest =>
               match
                 match x with
                 | VUndefined | VNull => Some EmptyString
                 | _ => ToString x
                 end,
                 elems rest
               with
               | Some t, Some ts => Some (t :: ts)
               | _, _ => None
               end
           end) items
      with
      | Some texts => Some (join "," texts)
      | None => None
      end
  | VObj props =>
      if owns "toString" props then None else Some "[object Object]"
  end.

(** The text an array element contributes to [join]. *)
Definition element_text (v : value) : option string :=
  match v with
  | VUndefined | VNull => Some EmptyString
  | _ => ToString v
  end.

(** ** JSON.stringify *)

Definition hex_char (d : N) : ascii :=
  if (d <? 10)%N then ascii_of_N (48 + d) else ascii_of_N (87 + d).

(** [QuoteJSONString], one code unit at a time. *)
Definition quote_char (c : ascii) : string :=
  let n := N_of_ascii c in
  if (n =? 34)%N then String backslash (String dquote EmptyString)
  else if (n =? 92)%N then String backslash (String backslash EmptyString)
  else if (n =? 8)%N then String backslash "b"
  else if (n =? 9)%N then String backslash "t"
  else if (n =? 10)%N then String backslash "n"
  else if (n =? 12)%N then String backslash "f"
  else if (n =? 13)%N then String backslash "r"
  else if (n <? 32)%N then
    String backslash
      (String "u" (String "0" (String "0"
         (String (hex_char (n / 16)) (String (hex_char (n mod 16)) EmptyString)))))
  else String c EmptyString.

Fixpoint quote_body (s : string) : string :=
  match s with
  | EmptyString => EmptyString
  | String c rest => quote_char c ++ quote_body rest
  end.

Definition quote (s : string) : string :=
  String dquote (quote_body s ++ String dquote EmptyString).

(** [JSON.stringify(v)] with no replacer and no indentation; [None] is the
    [undefined] it returns for [undefined].  A non-finite number prints as
    [null]; an [undefined] array element prints as [null]; a property whose
    value is [undefined] is left out. *)
Fixpoint JSON_stringify (v : value) : option string :=
  match v with
  | VUndefined => None
  | VNull => Some "null"
  | VBool true => Some "true"
  | VBool false => Some "false"
  | VNum NaN => Some "null"
  | VNum (Int z) => Some (Number_toString (Int z))
  | VStr s => Some (quote s)
  | VArr items =>
      Some ("[" ++
            join ","
              ((fix elems (l : list value) : list string :=
                  match l with
                  | [] => []
                  | x :: rest =>
                      match JSON_stringify x with
                      | Some t => t
                      | None => "null"
                      end :: elems rest
                  end) items)
            ++ "]")
  | VObj props =>
      Some ("{" ++
            join ","
              ((fix members (l : list (string * value)) : list string :=
                  match l with
                  | [] => []
                  | (k, x) :: rest =>
                      match JSON_stringify x with
                      | Some t => (quote k ++ ":" ++ t) :: members rest
                      | None => members rest
                      end
                  end) props)
            ++ "}")
  end.

(** ** Property access and enumeration *)

Fixpoint lookup (k : string) (props : list (string * value)) : option value :=
  match props with
  | [] => None
  | (k', x) :: rest => if (k =? k') then Some x else lookup k rest
  end.

(** Indexed entries of an array-like: the keys are the decimal indices. *)
Fixpoint indexed {A : Type} (i : N) (l : list A) : list (string * A) :=
  match l with
  | [] => []
  | x :: rest => (N_to_decimal i, x) :: indexed (N.succ i) rest
  end.

End Js.

(* ================================================================== *)
(** * Asynchronous handlers over [fetch] *)
(* ================================================================== *)

Module Net.
Import Js.

(** What [fetch(url, {method, body})] is given. *)
Record request : Type := mkRequest {
  url : string;
  method : string;
  body : option string
}.

(** What [fetch] followed by [response.json()] produces: [fetch] rejects
    (the backend is not running), the body is not JSON, or the body decodes
    to a value. *)
Inductive fetch_outcome : Type :=
| NetworkFailure
| BodyNotJSON
| BodyJSON (payload : value).

(** Exceptions: [new Error(msg)] thrown by the server, and the built-in
    failures of property access on [null] or [undefined], of calling what
    is not a function, of [fetch] and of [response.json()]. *)
Inductive exn : Type :=
| Error (msg : string)
| TypeError
| FetchFailed
| SyntaxError.

(** An async function body: it returns, throws, or awaits a fetch. *)
Inductive prog (A : Type) : Type :=
| Ret (a : A)
| Throw (e : exn)
| Fetch (rq : request) (k : fetch_outcome -> prog A).

Arguments Ret {A} a.
Arguments Throw {A} e.
Arguments Fetch {A} rq k.

Fixpoint bind {A B : Type} (p : prog A) (f : A -> prog B) : prog B :=
  match p with
  | Ret a => f a
  | Throw e => Throw e
  | Fetch rq k => Fetch rq (fun o => bind (k o) f)
  end.

Declare Scope prog_scope.
Delimit Scope prog_scope with prog.
Notation "x <- p ;; q" := (bind p (fun x => q))
  (at level 61, p at next level, right associativity) : prog_scope.

(** ** Running a handler against a backend *)

Record result (S A : Type) : Type := mkResult {
  outcome : exn + A;
  calls : list request;
  final : S
}.

Arguments mkResult {S A} outcome calls final.
Arguments outcome {S A} r.
Arguments calls {S A} r.
Arguments final {S A} r.

Section Run.
Context {S : Type}.

(** The backend: from its state and a request, what the fetch produces
    and the next state. *)
Variable serve : S -> request -> fetch_outcome * S.

Fixpoint run {A : Type} (p : prog A) (s : S) : result S A :=
  match p with
  | Ret a => mkResult (inr a) [] s
  | Throw e => mkResult (inl e) [] s
  | Fetch rq k =>
      let r := run (k (fst (serve s rq))) (snd (serve s rq)) in
      mkResult (outcome r) (rq :: calls r) (final r)
  end.

(** [n] runs of the same handler, one after the other; the outcomes in
    order and the state after the last run. *)
Fixpoint repeat_run {A : Type} (n : nat) (p : prog A) (s : S)
  : list (exn + A) * S :=
  match n with
  | O => ([], s)
  | Datatypes.S n' =>
      let r := run p s in
      let rest := repeat_run n' p (final r) in
      (outcome r :: fst rest, snd rest)
  end.
End Run.

Definition succeeded {A : Type} (o : exn + A) : bool :=
  match o with inr _ => true | inl _ => false end.

End Net.

(* ================================================================== *)
(** * The server *)
(* ================================================================== *)

Import Js Net.
Open Scope prog_scope.

(** ** Property access, enumeration and array methods as handler steps *)

(** [v.k] and [const { k } = v], for the two property names the server
    reads, [result] and [modelName]: neither is an index, [length] or a
    prototype member, so only an object can own it.  Reading a property of
    [null] or [undefined] throws. *)
Definition getProperty (v : value) (k : string) : prog value :=
  match v with
  | VUndefined | VNull => Throw TypeError
  | VObj props =>
      Ret (match lookup k props with Some x => x | None => VUndefined end)
  | _ => Ret VUndefined
  end.

(** [Object.entries(v)] *)
Definition Object_entries (v : value) : prog (list (string * value)) :=
  match v with
  | VUndefined | VNull => Throw TypeError
  | VObj props => Ret props
  | VArr items => Ret (indexed 0 items)
  | VStr s =>
      Ret (indexed 0
             (map (fun c => VStr (String c EmptyString)) (list_ascii_of_string s)))
  | VBool _ | VNum _ => Ret []
  end.

(** A conversion inside a handler: what [None] stands for is thrown. *)
Definition convert {A : Type} (x : option A) : prog A :=
  match x with
  | Some a => Ret a
  | None => Throw TypeError
  end.

(** [v.join(sep)]: only an array has the method, and it converts every
    element. *)
Definition Array_join (v : value) (sep : string) : prog string :=
  match v with
  | VArr items =>
      match sequence (map element_text items) with
      | Some texts => Ret (join sep texts)
      | None => Throw TypeError
      end
  | _ => Throw TypeError
  end.

(** The text a template literal inserts for [JSON.stringify(v)]. *)
Definition stringified_text (t : option string) : string :=
  match t with
  | Some s => s
  | None => "undefined"
  end.

(** ** Backend gateway: [ankiRequest], index.ts lines 36-47 *)

(** The request [ankiRequest(action, params)] hands to [fetch]; an omitted
    or [undefined] [params] takes the default [{}]. *)
Definition gateway_request (action : string) (params : value) : request :=
  {| url := "http://localhost:8765";
     method := "POST";
     body := JSON_stringify
               (VObj [("action", VStr action);
                      ("version", VNum (Int 6));
                      ("params", match params with
                                 | VUndefined => VObj []
                                 | _ => params
                                 end)]) |}.

(** [const { result } = await response.json(); return result] *)
Definition unwrap (o : fetch_outcome) : prog value :=
  match o with
  | NetworkFailure => Throw FetchFailed
  | BodyNotJSON => Throw SyntaxError
  | BodyJSON payload => getProperty payload "result"
  end.

Definition ankiRequest (action : string) (params : value) : prog value :=
  Fetch (gateway_request action params) unwrap.

(** ** Resource catalog *)

Record resource : Type := mkResource {
  uri : string;
  name : string
}.

Record content : Type := mkContent {
  content_uri : string;
  mimeType : string;
  text : option string
}.

(** [ListResourcesRequestSchema] handler, index.ts lines 56-73. *)
Definition ListResources : prog (list resource) :=
  decks <- ankiRequest "deckNamesAndIds" VUndefined ;;
  models <- ankiRequest "modelNamesAndIds" VUndefined ;;
  deckEntries <- Object_entries decks ;;
  deckResources <-
    convert
      (sequence
         (map (fun '(name, id) =>
                 option_map
                   (fun id' => {| uri := "anki://decks/" ++ id'; name := name |})
                   (ToString id))
              deckEntries)) ;;
  modelEntries <- Object_entries models ;;
  modelResources <-
    convert
      (sequence
         (map (fun '(name, id) =>
                 option_map
                   (fun id' => {| uri := "anki://models/" ++ id'; name := name |})
                   (ToString id))
              modelEntries)) ;;
  Ret (deckResources ++ modelResources)%list.

(** [ReadResourceRequestSchema] handler, index.ts lines 79-110. *)
Definition ReadResource (uri : string) : prog (list content) :=
  if startsWith uri "anki://decks/" then
    let deckId := parseInt (replace "anki://decks/" EmptyString uri) in
    Ret [ {| content_uri := uri;
             mimeType := "application/json";
             text := JSON_stringify (VObj [("deckId", VNum deckId)]) |} ]
  else if startsWith uri "anki://models/" then
    let modelId := parseInt (replace "anki://models/" EmptyString uri) in
    models <- ankiRequest "findModelsById"
                (VObj [("modelIds", VArr [VNum modelId])]) ;;
    Ret [ {| content_uri := uri;
             mimeType := "application/json";
             text := JSON_stringify models |} ]
  else Throw (Error "resource not found").

(** ** Tool dispatcher *)

(** [CallToolRequestSchema] handler, index.ts lines 196-244; the result is
    the [toolResult] text.  [arguments] is [request.params.arguments],
    [VUndefined] when the request carries none. *)
Definition CallTool (name : string) (arguments : value) : prog string :=
  if name =? "listDecks" then
    decks <- ankiRequest "deckNames" VUndefined ;;
    joined <- Array_join decks ", " ;;
    Ret ("Here is a list of the decks in the user's Anki collection: " ++ joined)
  else if name =? "listModels" then
    models <- ankiRequest "modelNames" VUndefined ;;
    models' <- convert (ToString models) ;;
    Ret ("Here is the list of note models in the user's Anki collection: "
           ++ models')
  else if name =? "getModel" then
    if negb (ToBoolean arguments) then
      Throw (Error "getModel requires a model name")
    else
      modelName <- getProperty arguments "modelName" ;;
      let modelNames := VArr [modelName] in
      model <- ankiRequest "findModelsByName"
                 (VObj [("modelNames", modelNames)]) ;;
      modelName' <- getProperty arguments "modelName" ;;
      modelName'' <- convert (ToString modelName') ;;
      Ret ("Here is the " ++ modelName''
             ++ " in the user's Anki collection: "
             ++ stringified_text (JSON_stringify model))
  else if name =? "addNotes" then
    createdNoteIds <- ankiRequest "addNotes" arguments ;;
    joined <- Array_join createdNoteIds ", " ;;
    Ret ("Created notes with the following IDs: " ++ joined)
  else if name =? "addNote" then
    createdNoteId <- ankiRequest "addNote" (VObj [("note", arguments)]) ;;
    createdNoteId' <- convert (ToString createdNoteId) ;;
    Ret ("Created note with the following ID: " ++ createdNoteId')
  else Throw (Error "Unknown tool").

(* ================================================================== *)
(** * Notions used in the statements *)
(* ================================================================== *)

(** [s] contains [sub]. *)
Definition contains (s sub : string) : Prop :=
  exists pre post : string, s = pre ++ sub ++ post.

(** The error indicator of a decoded payload, and whether it is non-empty:
    present, not [null] and not the empty string. *)
Definition error_indicator (payload : value) : value :=
  match payload with
  | VObj props =>
      match lookup "error" props with
      | Some e => e
      | None => VUndefined
      end
  | _ => VUndefined
  end.

Definition error_nonempty (payload : value) : bool :=
  ToBoolean (error_indicator payload).

(** The id is an integer that a number holds exactly: in this range
    [Number_toString] prints what the program prints. *)
Definition exact_id (id : Z) : Prop :=
  (Z.abs id <= Z.of_N MAX_SAFE_INTEGER)%Z.

Definition exact_ids (m : list (string * Z)) : Prop :=
  Forall (fun p => exact_id (snd p)) m.

(** A name-to-id mapping as the backend returns it. *)
Definition id_mapping (m : list (string * Z)) : value :=
  VObj (map (fun p => (fst p, VNum (Int (snd p)))) m).

(** The listing entry [r] is the one of the mapping pair [p] in the
    category whose URIs start with [category]. *)
Definition lists_pair (category : string) (p : string * Z) (r : resource) : Prop :=
  name r = fst p /\ uri r = category ++ Number_toString (Int (snd p)).

(** The listing entry synthesized for a mapping pair. *)
Definition entry_of (category : string) (p : string * Z) : resource :=
  {| uri := category ++ Number_toString (Int (snd p)); name := fst p |}.

(** What the listing makes of one entry of a mapping: the callback of
    [map] in the listing handler, for the category's prefix. *)
Definition listing_entry (category : string) (entry : string * value)
  : option resource :=
  let '(name, id) := entry in
  option_map (fun id' => {| uri := category ++ id'; name := name |})
             (ToString id).

(** The requests that change what the backend stores: the gateway calls of
    [addNote] and [addNotes]. *)
Definition mutating (rq : request) : Prop :=
  exists params : value,
    rq = gateway_request "addNote" params \/
    rq = gateway_request "addNotes" params.

(** The backend treats [rq] as a query: answering it leaves its state as it
    was. *)
Definition read_only_on {S : Type}
    (serve : S -> request -> fetch_outcome * S) (rq : request) : Prop :=
  forall s : S, snd (serve s rq) = s.

(** The JSON text of the object with the single property [deckId], given
    the text of its value. *)
Definition deckId_text (v : string) : string :=
  "{" ++ quote "deckId" ++ ":" ++ v ++ "}".

(** The content block of a read. *)
Definition json_block (uri : string) (text : option string) : content :=
  {| content_uri := uri; mimeType := "application/json"; text := text |}.

(** A handler step that performs no call and leaves the backend alone. *)
Definition quiet {S B : Type}
    (serve : S -> request -> fetch_outcome * S) (p : prog B) : Prop :=
  forall s : S, calls (run serve p s) = [] /\ final (run serve p s) = s.

(** ** Backends to run the handlers against *)

Definition reply (result : value) : fetch_outcome :=
  BodyJSON (VObj [("result", result); ("error", VNull)]).

Definition reply_error (message : string) : fetch_outcome :=
  BodyJSON (VObj [("result", VNull); ("error", VStr message)]).

(** Is [rq] the gateway call of [action] with [params]? *)
Definition calls_for (rq : request) (action : string) (params : value) : bool :=
  match body rq, body (gateway_request action params) with
  | Some a, Some b => (a =? b)%string
  | _, _ => false
  end.

Definition sample_note : value :=
  VObj [("deckName", VStr "D"); ("modelName", VStr "Basic");
        ("fields", VObj [("Front", VStr "Q"); ("Back", VStr "A")])].

Definition sample_notes : value :=
  VObj [("notes", VArr [sample_note; sample_note])].

(** A collection with two decks and one note type; the state counts the
    notes created so far, and a new note gets the id [123 + count]. *)
Definition sample_backend (created : Z) (rq : request) : fetch_outcome * Z :=
  if calls_for rq "deckNames" VUndefined then
    (reply (VArr [VStr "Default"; VStr "Spanish"]), created)
  else if calls_for rq "modelNames" VUndefined then
    (reply (VArr [VStr "Basic"]), created)
  else if calls_for rq "deckNamesAndIds" VUndefined then
    (reply (id_mapping [("Default", 1); ("Spanish", 1700000000000)]), created)%Z
  else if calls_for rq "modelNamesAndIds" VUndefined then
    (reply (id_mapping [("Basic", 1600000000000)]), created)%Z
  else if calls_for rq "findModelsById"
            (VObj [("modelIds", VArr [VNum (Int 1600000000000)])]) then
    (reply (VArr [VObj [("id", VNum (Int 1600000000000)); ("name", VStr "Basic")]]),
     created)
  else if calls_for rq "addNote" (VObj [("note", sample_note)]) then
    (reply (VNum (Int (123 + created))), created + 1)%Z
  else if calls_for rq "addNotes" sample_notes then
    (reply (VArr [VNum (Int (123 + created)); VNum (Int (124 + created))]),
     created + 2)%Z
  else (reply_error "unsupported action", created).

(** A backend whose two deck names carry the same id. *)
Definition duplicate_id_backend (s : unit) (rq : request) : fetch_outcome * unit :=
  if calls_for rq "deckNamesAndIds" VUndefined then
    (reply (id_mapping [("A", 1); ("B", 1)]), s)%Z
  else (reply (id_mapping []), s).

(** A backend that is not running. *)
Definition offline_backend (s : unit) (rq : request) : fetch_outcome * unit :=
  (NetworkFailure, s).

(* ================================================================== *)
(** * The tool table and the earlier revision of the server *)
(* ================================================================== *)

(** ** Tool descriptors: the [ListToolsRequestSchema] handler,
       index.ts lines 112-190 *)

Module Tool.
Record t : Type := mk {
  name : string;
  description : string;
  inputSchema : value
}.
End Tool.

(** [noteParameters], index.ts lines 112-136. *)
Definition noteParameters : value :=
  VObj [("type", VStr "object");
        ("properties",
         VObj [("deckName",
                VObj [("type", VStr "string");
                      ("description", VStr "Name of the deck to add note to")]);
               ("modelName",
                VObj [("type", VStr "string");
                      ("description", VStr "Name of the note model/type to use")]);
               ("fields",
                VObj [("type", VStr "object");
                      ("description",
                       VStr "Map of fields to the value in the note model being used")]);
               ("tags",
                VObj [("type", VStr "array");
                      ("items", VObj [("type", VStr "string")]);
                      ("description", VStr "Tags to apply to the note")])]);
        ("required", VArr [VStr "deckName"; VStr "modelName"; VStr "fields"])].

Definition ListTools : prog (list Tool.t) :=
  Ret [ {| Tool.name := "listDecks";
           Tool.description := "Get the names of all decks from Anki";
           Tool.inputSchema :=
             VObj [("type", VStr "object"); ("properties", VObj [])] |};
        {| Tool.name := "listModels";
           Tool.description := "Get the names of all note models from Anki";
           Tool.inputSchema :=
             VObj [("type", VStr "object"); ("properties", VObj [])] |};
        {| Tool.name := "getModel";
           Tool.description :=
             "Get a model, including field and template definitions, from Anki";
           Tool.inputSchema :=
             VObj [("type", VStr "object");
                   ("properties",
                    VObj [("modelName",
                           VObj [("type", VStr "string");
                                 ("description", VStr "Name of the model to get")])])] |};
        {| Tool.name := "addNote";
           Tool.description := "Create a single note";
           Tool.inputSchema := noteParameters |};
        {| Tool.name := "addNotes";
           Tool.description := "Create many notes in a deck";
           Tool.inputSchema :=
             VObj [("type", VStr "object");
                   ("properties",
                    VObj [("notes",
                           VObj [("type", VStr "array");
                                 ("description", VStr "Notes to create");
                                 ("items", noteParameters)])])] |} ].

(** The names a client sees when it lists the tools. *)
Definition listed_names (p : prog (list Tool.t)) : list string :=
  match p with
  | Ret tools => map Tool.name tools
  | _ => []
  end.

(** ** The earlier revision, src/unnamed/part_000

    Its [ankiRequest] is the one of index.ts, character for character. *)

Module Earlier.

(** [ListResourcesRequestSchema] handler, part_000 lines 65-76. *)
Definition ListResources : prog (list resource) :=
  decks <- ankiRequest "deckNamesAndIds" VUndefined ;;
  deckEntries <- Object_entries decks ;;
  deckResources <-
    convert
      (sequence
         (map (fun '(name, id) =>
                 option_map
                   (fun id' => {| uri := "anki://decks/" ++ id'; name := name |})
                   (ToString id))
              deckEntries)) ;;
  Ret deckResources.

(** [ListToolsRequestSchema] handler, part_000 lines 82-132. *)
Definition ListTools : prog (list Tool.t) :=
  Ret [ {| Tool.name := "list_decks";
           Tool.description := "List the decks available in the collection";
           Tool.inputSchema :=
             VObj [("type", VStr "object"); ("properties", VObj [])] |};
        {| Tool.name := "list_models";
           Tool.description :=
             "List the note model types available in the collection";
           Tool.inputSchema :=
             VObj [("type", VStr "object"); ("properties", VObj [])] |};
        {| Tool.name := "create_note";
           Tool.description := "Create a note in a deck";
           Tool.inputSchema :=
             VObj [("type", VStr "object");
                   ("properties",
                    VObj [("deckName",
                           VObj [("type", VStr "string");
                                 ("description",
                                  VStr "Name of the deck to add note to")]);
                          ("modelName",
                           VObj [("type", VStr "string");
                                 ("description",
                                  VStr "Name of the note model/type to use")]);
                          ("fields",
                           VObj [("type", VStr "object");
                                 ("description",
                                  VStr "Field values for the note model being used")]);
                          ("tags",
                           VObj [("type", VStr "array");
                                 ("items", VObj [("type", VStr "string")]);
                                 ("description", VStr "Tags to apply to the note")])]);
                   ("required",
                    VArr [VStr "deckName"; VStr "modelName"; VStr "fields"])] |} ].

(** [CallToolRequestSchema] handler, part_000 lines 138-143: a [switch]
    with the [default] case only. *)
Definition CallTool (name : string) (arguments : value) : prog string :=
  Throw (Error "Unknown tool").

End Earlier.

(* ================================================================== *)
(** * Notions used in the statements about the whole server *)
(* ================================================================== *)

(** Every request the program may issue, on whatever the backend answers,
    satisfies [P]. *)
Fixpoint fetches_satisfy {A : Type} (P : request -> Prop) (p : prog A) : Prop :=
  match p with
  | Ret _ | Throw _ => True
  | Fetch rq k => P rq /\ forall o : fetch_outcome, fetches_satisfy P (k o)
  end.

(** A request as the gateway shapes it: a POST to the fixed endpoint with a
    body. *)
Definition to_backend (rq : request) : Prop :=
  url rq = "http://localhost:8765" /\ method rq = "POST" /\ body rq <> None.

(** The gateway call a tool makes, as action and parameters; [None] for a
    call that the dispatcher ends before the gateway. *)
Definition tool_call (name : string) (arguments : value) : option (string * value) :=
  if name =? "listDecks" then Some ("deckNames", VUndefined)
  else if name =? "listModels" then Some ("modelNames", VUndefined)
  else if name =? "getModel" then
    match arguments with
    | VObj props =>
        Some ("findModelsByName",
              VObj [("modelNames",
                     VArr [match lookup "modelName" props with
                           | Some m => m
                           | None => VUndefined
                           end])])
    | _ =>
        if ToBoolean arguments
        then Some ("findModelsByName", VObj [("modelNames", VArr [VUndefined])])
        else None
    end
  else if name =? "addNotes" then Some ("addNotes", arguments)
  else if name =? "addNote" then Some ("addNote", VObj [("note", arguments)])
  else None.

(** The text [join] produces for the ids the backend reports for a batch of
    notes: the id of a created note, nothing for a note it did not create
    ([null]). *)
Definition created_id (x : option Z) : value :=
  match x with
  | Some id => VNum (Int id)
  | None => VNull
  end.

Definition created_id_text (x : option Z) : string :=
  match x with
  | Some id => Number_toString (Int id)
  | None => EmptyString
  end.

(** Every number inside [v] is an integer that a number holds exactly:
    the values on which [ToString] and [JSON_stringify] print what the
    program prints. *)
Fixpoint exact_numbers (v : value) : bool :=
  match v with
  | VNum (Int z) => (Z.abs z <=? Z.of_N MAX_SAFE_INTEGER)%Z
  | VArr items =>
      (fix all (l : list value) : bool :=
         match l with
         | [] => true
         | x :: rest => exact_numbers x && all rest
         end) items
  | VObj props =>
      (fix all (l : list (string * value)) : bool :=
         match l with
         | [] => true
         | (_, x) :: rest => exact_numbers x && all rest
         end) props
  | _ => true
  end.

(** What the backend reports for one note of a batch is an id that a
    number holds exactly, or no id. *)
Definition exact_created (x : option Z) : Prop :=
  match x with
  | Some id => exact_id id
  | None => True
  end.

(** [null] or [undefined]: the values whose properties cannot be read. *)
Definition is_nullish (v : value) : bool :=
  match v with
  | VUndefined | VNull => true
  | _ => false
  end.

(** The program issues at most [n] requests, whatever the backend
    answers. *)
Fixpoint at_most {A : Type} (n : nat) (p : prog A) {struct p} : Prop :=
  match p with
  | Ret _ | Throw _ => True
  | Fetch _ k =>
      match n with
      | O => False
      | S n' => forall o : fetch_outcome, at_most n' (k o)
      end
  end.

(** The program keeps to the gateway's discipline: its requests are
    shaped by the gateway, and there are at most [n] of them. *)
Definition disciplined {A : Type} (n : nat) (p : prog A) : Prop :=
  fetches_satisfy to_backend p /\ at_most n p.

(** A backend that reports an error for every action. *)
Definition failing_backend (message : string) (s : unit) (rq : request)
  : fetch_outcome * unit :=
  (reply_error message, s).

(** A backend that knows the note type [Basic]. *)
Definition basic_model : value :=
  VArr [VObj [("id", VNum (Int 1600000000000)); ("name", VStr "Basic")]].

Definition model_backend (s : unit) (rq : request) : fetch_outcome * unit :=
  if calls_for rq "findModelsByName" (VObj [("modelNames", VArr [VStr "Basic"])])
  then (reply basic_model, s)
  else (reply_error "model was not found", s).

(** A backend that creates the first note of a batch and not the second. *)
Definition partial_backend (s : unit) (rq : request) : fetch_outcome * unit :=
  (reply (VArr [VNum (Int 123); VNull]), s).

(* ================================================================== *)
(** * Facts about the built-ins *)
(* ================================================================== *)

Section StringFacts.

Lemma drop_app (p s : string) : drop (length p) (p ++ s) = s.
Proof. induction p as [|c p IH]; simpl; auto. Qed.

Lemma prefix_app (p s : string) : prefix p (p ++ s) = true.
Proof.
  induction p as [|c p IH]; simpl.
  - now destruct s.
  - destruct (ascii_dec c c); [assumption | congruence].
Qed.

(** A string that starts with [p] is [p] followed by what [drop] leaves. *)
Lemma startsWith_split (s p : string) :
  startsWith s p = true -> s = p ++ drop (length p) s.
Proof.
  unfold startsWith. revert s.
  induction p as [|c p IH]; intros s H; simpl in *.
  - reflexivity.
  - destruct s as [|d s]; simpl in H; [discriminate|].
    destruct (ascii_dec c d) as [->|]; [|discriminate].
    simpl. f_equal. now apply IH.
Qed.

(** Replacing a leading [p] by nothing strips it. *)
Lemma replace_leading (p s : string) :
  replace p EmptyString (p ++ s) = s.
Proof.
  destruct p as [|c p]; simpl.
  - now destruct s.
  - destruct (ascii_dec c c); [|congruence].
    rewrite prefix_app. simpl. apply drop_app.
Qed.

Lemma append_nil_r (s : string) : s ++ EmptyString = s.
Proof. induction s; simpl; congruence. Qed.

Lemma append_assoc (a b c : string) : (a ++ b) ++ c = a ++ (b ++ c).
Proof. induction a; simpl; congruence. Qed.

Lemma append_inj_l (p a b : string) : p ++ a = p ++ b -> a = b.
Proof. induction p; simpl; intros H; [assumption | injection H; auto]. Qed.

End StringFacts.

Section DecimalFacts.
Open Scope N_scope.

Lemma digit_value_digit_char (d : N) :
  d < 10 -> digit_value 10 (digit_char d) = Some d.
Proof.
  intros H.
  assert (E : d = 0 \/ d = 1 \/ d = 2 \/ d = 3 \/ d = 4 \/
              d = 5 \/ d = 6 \/ d = 7 \/ d = 8 \/ d = 9) by lia.
  repeat (destruct E as [-> | E]; [reflexivity|]). now subst.
Qed.

Lemma digits_loop_step (fuel : nat) (n : N) (acc : string) :
  digits_loop (S fuel) n acc
  = if n / 10 =? 0 then String (digit_char (n mod 10)) acc
    else digits_loop fuel (n / 10) (String (digit_char (n mod 10)) acc).
Proof. reflexivity. Qed.

(** What [digits_loop] puts in front of the accumulator: a non-empty run
    of digit characters whose value is [n], with a leading zero only for
    the number zero. *)
Lemma digits_loop_spec (fuel : nat) :
  forall (n : N) (acc : string),
    n < 2 ^ N.of_nat (S fuel) ->
    exists (d : N) (ds : string) (k : N),
      digits_loop (S fuel) n acc = String (digit_char d) ds ++ acc /\
      d < 10 /\ (d = 0 -> n = 0 /\ ds = EmptyString) /\
      forall (a : option N) (rest : string),
        scan_digits 10 (String (digit_char d) ds ++ rest) a
        = scan_digits 10 rest (Some (acc_value a * 10 ^ k + n)).
Proof.
  induction fuel as [|fuel IH]; intros n acc Hn.
  - assert (Hq : n / 10 = 0) by (apply N.div_small; simpl in Hn; lia).
    assert (Hm : n mod 10 = n) by (apply N.mod_small; simpl in Hn; lia).
    exists n, EmptyString, 1.
    rewrite digits_loop_step, Hq, Hm. cbn [N.eqb].
    split; [reflexivity|]. split; [simpl in Hn; lia|].
    split; [intros ->; auto|].
    intros a rest. cbn [append scan_digits].
    rewrite digit_value_digit_char by (simpl in Hn; lia).
    destruct a; cbn [acc_value]; f_equal; f_equal; lia.
  - rewrite digits_loop_step.
    destruct (n / 10 =? 0) eqn:Hq.
    + apply N.eqb_eq in Hq.
      assert (Hlt : n < 10).
      { destruct (N.lt_ge_cases n 10) as [|Hge]; [assumption|].
        pose proof (N.Div0.div_le_mono 10 n 10 Hge) as Hd.
        rewrite N.div_same in Hd by lia. lia. }
      rewrite (N.mod_small n 10 Hlt).
      exists n, EmptyString, 1.
      split; [reflexivity|]. split; [assumption|].
      split; [intros ->; auto|].
      intros a rest. cbn [append scan_digits].
      rewrite digit_value_digit_char by assumption.
      destruct a; cbn [acc_value]; f_equal; f_equal; lia.
    + apply N.eqb_neq in Hq.
      assert (Hn' : n / 10 < 2 ^ N.of_nat (S fuel)).
      { apply N.Div0.div_lt_upper_bound.
        replace (N.of_nat (S (S fuel))) with (N.succ (N.of_nat (S fuel))) in Hn by lia.
        rewrite N.pow_succ_r' in Hn. lia. }
      destruct (IH (n / 10) (String (digit_char (n mod 10)) acc) Hn')
        as (d & ds & k & Heq & Hd & Hzero & Hscan).
      exists d, (ds ++ String (digit_char (n mod 10)) EmptyString), (k + 1).
      split.
      { rewrite Heq. cbn [append]. f_equal.
        rewrite append_assoc. reflexivity. }
      split; [assumption|].
      split.
      { intros Hd0. destruct (Hzero Hd0) as [Hz _]. congruence. }
      intros a rest.
      change (String (digit_char d) (ds ++ String (digit_char (n mod 10)) EmptyString) ++ rest)
        with (String (digit_char d) ((ds ++ String (digit_char (n mod 10)) EmptyString) ++ rest)).
      rewrite append_assoc.
      change (String (digit_char d) (ds ++ String (digit_char (n mod 10)) EmptyString ++ rest))
        with (String (digit_char d) ds ++ String (digit_char (n mod 10)) rest).
      rewrite Hscan. cbn [scan_digits].
      rewrite digit_value_digit_char by (apply N.mod_lt; lia).
      f_equal. f_equal. cbn [acc_value].
      rewrite N.pow_add_r, N.pow_1_r.
      pose proof (N.div_mod n 10 ltac:(lia)) as Hdm. nia.
Qed.

Lemma N_to_decimal_spec (n : N) :
  exists (d : N) (ds : string) (k : N),
    N_to_decimal n = String (digit_char d) ds /\
    d < 10 /\ (d = 0 -> n = 0 /\ ds = EmptyString) /\
    forall (a : option N) (rest : string),
      scan_digits 10 (String (digit_char d) ds ++ rest) a
      = scan_digits 10 rest (Some (acc_value a * 10 ^ k + n)).
Proof.
  assert (Hn : n < 2 ^ N.of_nat (S (N.to_nat (N.log2 n)))).
  { replace (N.of_nat (S (N.to_nat (N.log2 n)))) with (N.succ (N.log2 n)) by lia.
    destruct (N.eq_dec n 0) as [->|Hpos]; [reflexivity|].
    apply N.log2_spec. lia. }
  destruct (digits_loop_spec _ n EmptyString Hn) as (d & ds & k & Heq & H).
  exists d, ds, k. split; [|exact H].
  unfold N_to_decimal. rewrite Heq. apply append_nil_r.
Qed.

(** [parseInt] on a string that starts with a decimal digit and is not
    the start of a hexadecimal literal: the digits are read in base 10. *)
Lemma parseInt_unsigned (d : N) (ds : string) :
  d < 10 -> (d = 0 -> ds = EmptyString) ->
  parseInt (String (digit_char d) ds)
  = match scan_digits 10 (String (digit_char d) ds) None with
    | None => NaN
    | Some m => Int (Z.of_N m)
    end.
Proof.
  intros Hd Hzero.
  assert (E : d = 0 \/ d = 1 \/ d = 2 \/ d = 3 \/ d = 4 \/
              d = 5 \/ d = 6 \/ d = 7 \/ d = 8 \/ d = 9) by lia.
  destruct E as [-> | E]; [rewrite Hzero by reflexivity; reflexivity|].
  repeat (destruct E as [-> | E]; [reflexivity|]). now subst.
Qed.

Lemma parseInt_negative (d : N) (ds : string) :
  0 < d < 10 ->
  parseInt (String "-" (String (digit_char d) ds))
  = match scan_digits 10 (String (digit_char d) ds) None with
    | None => NaN
    | Some m => Int (- Z.of_N m)
    end.
Proof.
  intros Hd.
  assert (E : d = 1 \/ d = 2 \/ d = 3 \/ d = 4 \/
              d = 5 \/ d = 6 \/ d = 7 \/ d = 8 \/ d = 9) by lia.
  repeat (destruct E as [-> | E]; [reflexivity|]). now subst.
Qed.

(** Reading back the decimal digits of a natural number. *)
Lemma parseInt_N_to_decimal (n : N) :
  parseInt (N_to_decimal n) = Int (Z.of_N n).
Proof.
  destruct (N_to_decimal_spec n) as (d & ds & k & Heq & Hd & Hzero & Hscan).
  rewrite Heq, parseInt_unsigned by (assumption || (intros E; apply Hzero, E)).
  specialize (Hscan None EmptyString).
  rewrite append_nil_r in Hscan. rewrite Hscan. reflexivity.
Qed.

(** [parseInt] inverts [Number::toString]. *)
Lemma parseInt_Number_toString (x : number) :
  parseInt (Number_toString x) = x.
Proof.
  destruct x as [|z]; [reflexivity|].
  unfold Number_toString.
  destruct (Z.ltb_spec z 0) as [Hneg|Hpos].
  - destruct (N_to_decimal_spec (Z.to_N (- z)))
      as (d & ds & k & Heq & Hd & Hzero & Hscan).
    rewrite Heq, parseInt_negative.
    + specialize (Hscan None EmptyString).
      rewrite append_nil_r in Hscan. rewrite Hscan.
      cbn [scan_digits acc_value]. f_equal. lia.
    + destruct (N.eq_dec d 0) as [Hd0|]; [|lia].
      destruct (Hzero Hd0). lia.
  - rewrite parseInt_N_to_decimal. f_equal. lia.
Qed.

Lemma Number_toString_inj (x y : number) :
  Number_toString x = Number_toString y -> x = y.
Proof.
  intros H. rewrite <- (parseInt_Number_toString x), H.
  apply parseInt_Number_toString.
Qed.

End DecimalFacts.

(* ================================================================== *)
(** * Facts about running handlers *)
(* ================================================================== *)

Section RunFacts.
Context {S : Type}.
Variable serve : S -> request -> fetch_outcome * S.

(** Running [p] and then [f]: the calls of both, in order; an exception
    of [p] ends the run. *)
Lemma run_bind {A B : Type} (p : prog A) (f : A -> prog B) :
  forall s : S,
    run serve (bind p f) s
    = match outcome (run serve p s) with
      | inl e => mkResult (inl e) (calls (run serve p s)) (final (run serve p s))
      | inr a =>
          let r := run serve (f a) (final (run serve p s)) in
          mkResult (outcome r) (calls (run serve p s) ++ calls r) (final r)
      end.
Proof.
  induction p as [a|e|rq k IH]; intros s; cbn [bind run outcome calls final].
  - now destruct (run serve (f a) s).
  - reflexivity.
  - rewrite IH.
    destruct (outcome (run serve (k (fst (serve s rq))) (snd (serve s rq))));
      reflexivity.
Qed.

(** Unwrapping a response performs no call. *)
Lemma unwrap_settled (o : fetch_outcome) :
  (exists v, unwrap o = Ret v) \/ (exists e, unwrap o = Throw e).
Proof.
  destruct o as [| |payload]; cbn; eauto.
  destruct payload; cbn; eauto.
Qed.

(** A gateway call followed by [k]. *)
Lemma run_call_Ret {B : Type} (action : string) (params v : value)
      (k : value -> prog B) (s : S) :
  unwrap (fst (serve s (gateway_request action params))) = Ret v ->
  run serve (bind (ankiRequest action params) k) s
  = let r := run serve (k v) (snd (serve s (gateway_request action params))) in
    mkResult (outcome r) (gateway_request action params :: calls r) (final r).
Proof. intros H. cbn [ankiRequest bind run]. rewrite H. reflexivity. Qed.

Lemma run_call_Throw {B : Type} (action : string) (params : value) (e : exn)
      (k : value -> prog B) (s : S) :
  unwrap (fst (serve s (gateway_request action params))) = Throw e ->
  run serve (bind (ankiRequest action params) k) s
  = mkResult (inl e) [gateway_request action params]
      (snd (serve s (gateway_request action params))).
Proof. intros H. cbn [ankiRequest bind run]. rewrite H. reflexivity. Qed.

End RunFacts.

(* ================================================================== *)
(** * Backend gateway *)
(* ================================================================== *)

(** C1, as the specification states it, fails: the backend answers with a
    non-empty error indicator and [ankiRequest] returns normally, with the
    payload's [result] field ([null] here). *)
Lemma C1_error_indicator_ignored :
  fst (sample_backend 0 (gateway_request "renameDeck" VUndefined))
    = reply_error "unsupported action" /\
  error_nonempty (VObj [("result", VNull); ("error", VStr "unsupported action")])
    = true /\
  outcome (run sample_backend (ankiRequest "renameDeck" VUndefined) 0%Z)
    = inr VNull.
Proof. repeat split. Qed.

(** C1 (amended): [ankiRequest] issues one request and returns the [result]
    field of every object payload, whatever its error indicator holds; it
    fails exactly when [fetch] rejects, when the body is not JSON, or when
    the decoded payload is [null] (or [undefined]). *)
Theorem C1_ankiRequest_returns_result
    (S : Type) (serve : S -> request -> fetch_outcome * S) (s : S)
    (action : string) (params : value) :
  let rq := gateway_request action params in
  let r := run serve (ankiRequest action params) s in
  calls r = [rq] /\
  (forall props,
      fst (serve s rq) = BodyJSON (VObj props) ->
      outcome r = inr (match lookup "result" props with
                       | Some x => x
                       | None => VUndefined
                       end)) /\
  (succeeded (outcome r) = false <->
   fst (serve s rq) = NetworkFailure \/
   fst (serve s rq) = BodyNotJSON \/
   fst (serve s rq) = BodyJSON VNull \/
   fst (serve s rq) = BodyJSON VUndefined).
Proof.
  cbn zeta. cbn [ankiRequest run calls outcome].
  destruct (fst (serve s (gateway_request action params))) as [| |payload].
  1, 2: cbn; repeat split; try discriminate; tauto.
  destruct payload; cbn;
    (split; [reflexivity|]);
    (split; [intros ? [=]; subst; reflexivity|]);
    split; intros H; try discriminate; try tauto;
    repeat (destruct H as [H|H]; try discriminate).
Qed.

Lemma C1_ankiRequest_returns_result_witness :
  fst (sample_backend 0 (gateway_request "renameDeck" VUndefined))
    = BodyJSON (VObj [("result", VNull); ("error", VStr "unsupported action")]) /\
  outcome (run sample_backend (ankiRequest "renameDeck" VUndefined) 0%Z)
    = inr VNull.
Proof.
  split; [reflexivity|].
  apply (proj1 (proj2 (C1_ankiRequest_returns_result
                         Z sample_backend 0%Z "renameDeck" VUndefined))
           [("result", VNull); ("error", VStr "unsupported action")]).
  reflexivity.
Defined.

(* ================================================================== *)
(** * Resource catalog: reading *)
(* ================================================================== *)

Section ReadFacts.

Lemma startsWith_app (p s : string) : startsWith (p ++ s) p = true.
Proof. apply prefix_app. Qed.

(** The URIs that start with [p] are the strings [p ++ suffix]. *)
Lemma startsWith_iff (uri p : string) :
  startsWith uri p = true <-> exists suffix, uri = p ++ suffix.
Proof.
  split.
  - intros H. exists (drop (length p) uri). now apply startsWith_split.
  - intros [suffix ->]. apply startsWith_app.
Qed.

Lemma models_uri_not_deck (suffix : string) :
  startsWith ("anki://models/" ++ suffix) "anki://decks/" = false.
Proof. reflexivity. Qed.

(** The decks branch, for a URI written as prefix and suffix. *)
Lemma ReadResource_deck (suffix : string) :
  ReadResource ("anki://decks/" ++ suffix)
  = Ret [json_block ("anki://decks/" ++ suffix)
           (JSON_stringify (VObj [("deckId", VNum (parseInt suffix))]))].
Proof.
  unfold ReadResource.
  rewrite startsWith_app, replace_leading. reflexivity.
Qed.

(** The models branch, for a URI written as prefix and suffix. *)
Lemma ReadResource_model (suffix : string) :
  ReadResource ("anki://models/" ++ suffix)
  = bind (ankiRequest "findModelsById"
            (VObj [("modelIds", VArr [VNum (parseInt suffix)])]))
         (fun models =>
            Ret [json_block ("anki://models/" ++ suffix) (JSON_stringify models)]).
Proof.
  unfold ReadResource.
  rewrite models_uri_not_deck, startsWith_app, replace_leading. reflexivity.
Qed.

Lemma stringify_deckId (x : number) :
  JSON_stringify (VObj [("deckId", VNum x)])
  = Some (deckId_text (match x with
                       | NaN => "null"
                       | Int _ => Number_toString x
                       end)).
Proof. destruct x; reflexivity. Qed.

End ReadFacts.

(** C4, as the specification states it, fails: the suffix [abc] is no
    integer, and the read returns a content block instead of failing. *)
Lemma C4_malformed_deck_uri_is_read :
  startsWith "anki://decks/abc" "anki://decks/" = true /\
  parseInt "abc" = NaN /\
  run offline_backend (ReadResource "anki://decks/abc") tt
  = mkResult
      (inr [json_block "anki://decks/abc" (Some (deckId_text "null"))]) [] tt.
Proof. repeat split. Qed.

(** C4 (amended): when the suffix after a recognized prefix does not parse
    as an integer, [read] does not fail on that account.  Under the decks
    prefix it returns one content block whose text is the object with
    [deckId] null, with no backend call.  Under the models prefix it issues
    the find-by-id call with the unparsed id (sent as [null]) and returns
    what the gateway returns as content; it fails only when that gateway
    call fails. *)
Theorem C4_unparsable_suffix_is_not_rejected
    (suffix : string) (S : Type)
    (serve : S -> request -> fetch_outcome * S) (s : S) :
  parseInt suffix = NaN ->
  run serve (ReadResource ("anki://decks/" ++ suffix)) s
  = mkResult
      (inr [json_block ("anki://decks/" ++ suffix) (Some (deckId_text "null"))])
      [] s
  /\
  let rq := gateway_request "findModelsById" (VObj [("modelIds", VArr [VNum NaN])]) in
  let r := run serve (ReadResource ("anki://models/" ++ suffix)) s in
  calls r = [rq] /\
  (forall v, unwrap (fst (serve s rq)) = Ret v ->
             outcome r = inr [json_block ("anki://models/" ++ suffix)
                                (JSON_stringify v)]) /\
  (forall e, unwrap (fst (serve s rq)) = Throw e -> outcome r = inl e).
Proof.
  intros Hnan. split.
  - rewrite ReadResource_deck, Hnan. reflexivity.
  - cbn zeta. rewrite ReadResource_model, Hnan.
    destruct (unwrap_settled
                (fst (serve s (gateway_request "findModelsById"
                                 (VObj [("modelIds", VArr [VNum NaN])])))))
      as [[v Hv]|[e He]].
    + rewrite (run_call_Ret serve _ _ v) by exact Hv.
      cbn [run outcome calls final]. rewrite Hv.
      repeat split; congruence.
    + rewrite (run_call_Throw serve _ _ e) by exact He.
      cbn [outcome calls]. rewrite He.
      repeat split; congruence.
Qed.

Lemma C4_unparsable_suffix_is_not_rejected_witness :
  parseInt "abc" = NaN /\
  run sample_backend (ReadResource "anki://decks/abc") 0%Z
  = mkResult
      (inr [json_block "anki://decks/abc" (Some (deckId_text "null"))]) [] 0%Z.
Proof.
  split; [reflexivity|].
  exact (proj1 (C4_unparsable_suffix_is_not_rejected
                  "abc" Z sample_backend 0%Z eq_refl)).
Defined.

(** C5: for every id [n] (an unsigned integer that a number holds exactly),
    reading the decks URI of [n] succeeds, with no backend call, and returns
    one JSON content block whose text is the serialized object with the
    single property [deckId] equal to [n]; and a URI that starts with
    neither recognized prefix fails with the error [resource not found]. *)
Theorem C5_read_deck_and_unknown_prefix
    (S : Type) (serve : S -> request -> fetch_outcome * S) (s : S) :
  (forall n : N,
      (n <= MAX_SAFE_INTEGER)%N ->
      run serve (ReadResource ("anki://decks/" ++ N_to_decimal n)) s
      = mkResult
          (inr [json_block ("anki://decks/" ++ N_to_decimal n)
                  (JSON_stringify (VObj [("deckId", VNum (Int (Z.of_N n)))]))])
          [] s
      /\ JSON_stringify (VObj [("deckId", VNum (Int (Z.of_N n)))])
         = Some (deckId_text (N_to_decimal n))) /\
  (forall uri : string,
      startsWith uri "anki://decks/" = false ->
      startsWith uri "anki://models/" = false ->
      run serve (ReadResource uri) s
      = mkResult (inl (Error "resource not found")) [] s).
Proof.
  split.
  - intros n _. rewrite ReadResource_deck, parseInt_N_to_decimal.
    split; [reflexivity|].
    rewrite stringify_deckId. unfold Number_toString.
    destruct (Z.ltb_spec (Z.of_N n) 0) as [Hneg|_]; [lia|].
    now rewrite N2Z.id.
  - intros uri Hd Hm. unfold ReadResource. rewrite Hd, Hm. reflexivity.
Qed.

Lemma C5_read_deck_and_unknown_prefix_witness :
  ((42 <= MAX_SAFE_INTEGER)%N /\
   run sample_backend (ReadResource "anki://decks/42") 0%Z
   = mkResult
       (inr [json_block "anki://decks/42" (Some (deckId_text "42"))]) [] 0%Z) /\
  (startsWith "bogus://x" "anki://decks/" = false /\
   startsWith "bogus://x" "anki://models/" = false /\
   run sample_backend (ReadResource "bogus://x") 0%Z
   = mkResult (inl (Error "resource not found")) [] 0%Z).
Proof.
  assert (H42 : (42 <= MAX_SAFE_INTEGER)%N) by (vm_compute; discriminate).
  split.
  - split; [exact H42|].
    exact (proj1 (proj1 (C5_read_deck_and_unknown_prefix Z sample_backend 0%Z)
                    42%N H42)).
  - split; [reflexivity|]. split; [reflexivity|].
    exact (proj2 (C5_read_deck_and_unknown_prefix Z sample_backend 0%Z)
             "bogus://x" eq_refl eq_refl).
Defined.

(** C9: for every URI that starts with the decks prefix, [read] issues no
    backend call; its result is fixed by the URI alone, the same on every
    backend and in every backend state, and the backend state after the
    read is the one before it. *)
Theorem C9_read_deck_is_local (uri : string) :
  startsWith uri "anki://decks/" = true ->
  exists contents : list content,
    forall (S : Type) (serve : S -> request -> fetch_outcome * S) (s : S),
      run serve (ReadResource uri) s = mkResult (inr contents) [] s.
Proof.
  intros H. unfold ReadResource. rewrite H.
  eexists. intros S serve s. reflexivity.
Qed.

Lemma C9_read_deck_is_local_witness :
  startsWith "anki://decks/42" "anki://decks/" = true /\
  exists contents : list content,
    forall (S : Type) (serve : S -> request -> fetch_outcome * S) (s : S),
      run serve (ReadResource "anki://decks/42") s = mkResult (inr contents) [] s.
Proof.
  split; [reflexivity|].
  exact (C9_read_deck_is_local "anki://decks/42" eq_refl).
Defined.

(** C10: every successful [read], under the decks prefix as under the
    models prefix, returns exactly one content block; its [uri] is the
    requested URI and its [mimeType] is [application/json]. *)
Theorem C10_read_returns_one_json_block
    (S : Type) (serve : S -> request -> fetch_outcome * S) (s : S)
    (uri : string) (contents : list content) :
  outcome (run serve (ReadResource uri) s) = inr contents ->
  exists block : content,
    contents = [block] /\
    content_uri block = uri /\
    mimeType block = "application/json".
Proof.
  unfold ReadResource.
  destruct (startsWith uri "anki://decks/").
  - cbn. intros [= <-]. eexists. repeat split.
  - destruct (startsWith uri "anki://models/"); [|cbn; discriminate].
    set (params := VObj [("modelIds", _)]).
    destruct (unwrap_settled (fst (serve s (gateway_request "findModelsById" params))))
      as [[v Hv]|[e He]].
    + rewrite (run_call_Ret serve _ _ v) by exact Hv.
      cbn. intros [= <-]. eexists. repeat split.
    + rewrite (run_call_Throw serve _ _ e) by exact He.
      cbn. discriminate.
Qed.

Lemma C10_read_returns_one_json_block_witness :
  outcome (run sample_backend (ReadResource "anki://models/1600000000000") 0%Z)
  = inr [json_block "anki://models/1600000000000"
           (JSON_stringify
              (VArr [VObj [("id", VNum (Int 1600000000000)); ("name", VStr "Basic")]]))] /\
  exists block : content,
    [json_block "anki://models/1600000000000"
       (JSON_stringify
          (VArr [VObj [("id", VNum (Int 1600000000000)); ("name", VStr "Basic")]]))]
    = [block] /\
    content_uri block = "anki://models/1600000000000" /\
    mimeType block = "application/json".
Proof.
  assert (H : outcome (run sample_backend
                         (ReadResource "anki://models/1600000000000") 0%Z)
              = inr [json_block "anki://models/1600000000000"
                       (JSON_stringify
                          (VArr [VObj [("id", VNum (Int 1600000000000));
                                       ("name", VStr "Basic")]]))])
    by (vm_compute; reflexivity).
  split; [exact H|].
  exact (C10_read_returns_one_json_block Z sample_backend 0%Z _ _ H).
Defined.

(* ================================================================== *)
(** * Resource catalog: listing *)
(* ================================================================== *)

Section ListFacts.

(** The entries synthesized from a mapping of names to ids. *)
Lemma entries_of_id_mapping (category : string) (m : list (string * Z)) :
  sequence
    (map (fun '(name, id) =>
            option_map (fun id' => {| uri := category ++ id'; name := name |})
                       (ToString id))
         (map (fun p => (fst p, VNum (Int (snd p)))) m))
  = Some (map (entry_of category) m).
Proof.
  induction m as [|[k id] m IH]; cbn [map fst snd]; [reflexivity|].
  cbn [ToString option_map sequence]. now rewrite IH.
Qed.

Lemma entry_of_lists_pair (category : string) (m : list (string * Z)) :
  Forall2 (lists_pair category) m (map (entry_of category) m).
Proof.
  induction m as [|p m IH]; cbn [map]; constructor; [|assumption].
  split; reflexivity.
Qed.

Lemma uri_entry_of (category : string) (m : list (string * Z)) :
  map uri (map (entry_of category) m)
  = map (fun id => category ++ Number_toString (Int id)) (map snd m).
Proof. rewrite !map_map. reflexivity. Qed.

(** Distinct ids give distinct URIs within a category. *)
Lemma category_uris_NoDup (category : string) (ids : list Z) :
  NoDup ids ->
  NoDup (map (fun id => category ++ Number_toString (Int id)) ids).
Proof.
  intros Hnd. apply Injective_map_NoDup; [|assumption].
  intros x y Heq. apply append_inj_l, Number_toString_inj in Heq.
  congruence.
Qed.

(** A deck URI is never a model URI. *)
Lemma deck_uri_not_model_uri (a b : string) :
  "anki://decks/" ++ a <> "anki://models/" ++ b.
Proof. cbn. discriminate. Qed.

End ListFacts.

(** C3, as the specification states it, fails in its last part: the backend
    maps two deck names to the same id, and the listing holds the URI of
    that id twice. *)
Lemma C3_shared_id_gives_duplicate_uri :
  unwrap (fst (duplicate_id_backend tt (gateway_request "deckNamesAndIds" VUndefined)))
    = Ret (id_mapping [("A", 1%Z); ("B", 1%Z)]) /\
  outcome (run duplicate_id_backend ListResources tt)
    = inr [ {| uri := "anki://decks/1"; name := "A" |};
            {| uri := "anki://decks/1"; name := "B" |} ] /\
  ~ NoDup (map uri [ {| uri := "anki://decks/1"; name := "A" |};
                     {| uri := "anki://decks/1"; name := "B" |} ]).
Proof.
  split; [reflexivity|]. split; [reflexivity|].
  cbn [map uri]. intros H.
  apply NoDup_cons_iff in H. destruct H as [Hin _].
  apply Hin. left. reflexivity.
Qed.

(** C3 (amended): when the two enumeration calls return name-to-id
    mappings, the ids being integers that a number holds exactly, [list]
    issues these two calls and returns one listing entry per mapping pair,
    named by the key, with the URI of the pair's id under the decks prefix
    for deck entries and under the models prefix for model entries; the
    deck entries come first, each group in the enumeration order of its
    mapping; and the listing has no duplicate URI provided the ids within
    each mapping are pairwise distinct. *)
Theorem C3_list_one_entry_per_pair
    (S : Type) (serve : S -> request -> fetch_outcome * S) (s : S)
    (decks models : list (string * Z)) :
  let rqD := gateway_request "deckNamesAndIds" VUndefined in
  let rqM := gateway_request "modelNamesAndIds" VUndefined in
  exact_ids decks ->
  exact_ids models ->
  unwrap (fst (serve s rqD)) = Ret (id_mapping decks) ->
  unwrap (fst (serve (snd (serve s rqD)) rqM)) = Ret (id_mapping models) ->
  exists ds ms : list resource,
    outcome (run serve ListResources s) = inr (ds ++ ms)%list /\
    calls (run serve ListResources s) = [rqD; rqM] /\
    Forall2 (lists_pair "anki://decks/") decks ds /\
    Forall2 (lists_pair "anki://models/") models ms /\
    (NoDup (map snd decks) -> NoDup (map snd models) ->
     NoDup (map uri (ds ++ ms)%list)).
Proof.
  cbv zeta. intros _ _ HD HM.
  exists (map (entry_of "anki://decks/") decks),
         (map (entry_of "anki://models/") models).
  unfold ListResources.
  rewrite (run_call_Ret serve _ _ _ _ s HD).
  cbn zeta.
  rewrite (run_call_Ret serve _ _ _ _ _ HM).
  unfold id_mapping. cbn [Object_entries bind].
  rewrite !entries_of_id_mapping.
  cbn [convert bind run outcome calls final].
  split; [reflexivity|]. split; [reflexivity|].
  split; [apply entry_of_lists_pair|]. split; [apply entry_of_lists_pair|].
  intros HndD HndM. rewrite map_app, !uri_entry_of.
  apply NoDup_app; try now apply category_uris_NoDup.
  intros u HinD HinM.
  apply in_map_iff in HinD. destruct HinD as (a & <- & _).
  apply in_map_iff in HinM. destruct HinM as (b & Heq & _).
  symmetry in Heq. now apply deck_uri_not_model_uri in Heq.
Qed.

Lemma C3_list_one_entry_per_pair_witness :
  exact_ids [("Default", 1%Z); ("Spanish", 1700000000000%Z)] /\
  exact_ids [("Basic", 1600000000000%Z)] /\
  exists ds ms : list resource,
    outcome (run sample_backend ListResources 0%Z) = inr (ds ++ ms)%list /\
    calls (run sample_backend ListResources 0%Z)
      = [gateway_request "deckNamesAndIds" VUndefined;
         gateway_request "modelNamesAndIds" VUndefined] /\
    Forall2 (lists_pair "anki://decks/")
      [("Default", 1%Z); ("Spanish", 1700000000000%Z)] ds /\
    Forall2 (lists_pair "anki://models/") [("Basic", 1600000000000%Z)] ms /\
    (NoDup (map snd [("Default", 1%Z); ("Spanish", 1700000000000%Z)]) ->
     NoDup (map snd [("Basic", 1600000000000%Z)]) ->
     NoDup (map uri (ds ++ ms)%list)).
Proof.
  assert (HD : exact_ids [("Default", 1%Z); ("Spanish", 1700000000000%Z)])
    by (repeat constructor; vm_compute; discriminate).
  assert (HM : exact_ids [("Basic", 1600000000000%Z)])
    by (repeat constructor; vm_compute; discriminate).
  split; [exact HD|]. split; [exact HM|].
  exact (C3_list_one_entry_per_pair Z sample_backend 0%Z
           [("Default", 1%Z); ("Spanish", 1700000000000%Z)]
           [("Basic", 1600000000000%Z)] HD HM eq_refl eq_refl).
Defined.

(* ================================================================== *)
(** * Tool dispatcher *)
(* ================================================================== *)

(** The [switch] of the handler, one case at a time. *)
Section Dispatch.
Variable arguments : value.

Lemma CallTool_listDecks :
  CallTool "listDecks" arguments
  = (decks <- ankiRequest "deckNames" VUndefined ;;
     joined <- Array_join decks ", " ;;
     Ret ("Here is a list of the decks in the user's Anki collection: " ++ joined)).
Proof. reflexivity. Qed.

Lemma CallTool_listModels :
  CallTool "listModels" arguments
  = (models <- ankiRequest "modelNames" VUndefined ;;
     models' <- convert (ToString models) ;;
     Ret ("Here is the list of note models in the user's Anki collection: "
            ++ models')).
Proof. reflexivity. Qed.

Lemma CallTool_addNotes :
  CallTool "addNotes" arguments
  = (createdNoteIds <- ankiRequest "addNotes" arguments ;;
     joined <- Array_join createdNoteIds ", " ;;
     Ret ("Created notes with the following IDs: " ++ joined)).
Proof. reflexivity. Qed.

Lemma CallTool_addNote :
  CallTool "addNote" arguments
  = (createdNoteId <- ankiRequest "addNote" (VObj [("note", arguments)]) ;;
     createdNoteId' <- convert (ToString createdNoteId) ;;
     Ret ("Created note with the following ID: " ++ createdNoteId')).
Proof. reflexivity. Qed.

End Dispatch.

Lemma CallTool_getModel_empty :
  CallTool "getModel" (VObj [])
  = (model <- ankiRequest "findModelsByName"
                (VObj [("modelNames", VArr [VUndefined])]) ;;
     Ret ("Here is the undefined in the user's Anki collection: "
            ++ stringified_text (JSON_stringify model))).
Proof. reflexivity. Qed.

Section ToolFacts.
Context {S : Type}.
Variable serve : S -> request -> fetch_outcome * S.

Lemma quiet_Ret {B : Type} (b : B) : quiet serve (Ret b).
Proof. intros st. split; reflexivity. Qed.

Lemma quiet_convert {A B : Type} (x : option A) (k : A -> B) :
  quiet serve (a <- convert x ;; Ret (k a)).
Proof. intros st. destruct x; split; reflexivity. Qed.

Lemma quiet_Array_join {B : Type} (v : value) (sep : string) (k : string -> B) :
  quiet serve (joined <- Array_join v sep ;; Ret (k joined)).
Proof.
  intros st. destruct v; try (split; reflexivity).
  cbn [Array_join]. destruct (sequence (map element_text items));
    split; reflexivity.
Qed.

(** A tool made of one gateway call followed by quiet formatting: the call
    is the only one, and the backend state after the run is the one the
    call leaves. *)
Lemma run_call_then_quiet {B : Type} (action : string) (params : value)
      (k : value -> prog B) (s : S) :
  (forall v, quiet serve (k v)) ->
  calls (run serve (v <- ankiRequest action params ;; k v) s)
    = [gateway_request action params] /\
  final (run serve (v <- ankiRequest action params ;; k v) s)
    = snd (serve s (gateway_request action params)).
Proof.
  intros Hk.
  destruct (unwrap_settled (fst (serve s (gateway_request action params))))
    as [[v Hv]|[e He]].
  - rewrite (run_call_Ret serve _ _ v) by exact Hv.
    cbn [calls final].
    destruct (Hk v (snd (serve s (gateway_request action params)))) as [-> ->].
    split; reflexivity.
  - rewrite (run_call_Throw serve _ _ e) by exact He. split; reflexivity.
Qed.

Lemma element_text_numbers (ids : list Z) :
  sequence (map element_text (map (fun id => VNum (Int id)) ids))
  = Some (map (fun id => Number_toString (Int id)) ids).
Proof.
  induction ids as [|id ids IH]; cbn [map]; [reflexivity|].
  cbn [element_text ToString sequence]. now rewrite IH.
Qed.

(** Repeating a run that gives the backend state back. *)
Lemma repeat_run_fixed {A : Type} (p : prog A) (s : S) (n : nat) :
  final (run serve p s) = s ->
  repeat_run serve n p s = (repeat (outcome (run serve p s)) n, s).
Proof.
  intros Hs. induction n as [|n IH]; cbn [repeat_run repeat]; [reflexivity|].
  rewrite Hs, IH. reflexivity.
Qed.

(** The two query tools: one call, and the state the call leaves. *)
Lemma run_listDecks (arguments : value) (s : S) :
  calls (run serve (CallTool "listDecks" arguments) s)
    = [gateway_request "deckNames" VUndefined] /\
  final (run serve (CallTool "listDecks" arguments) s)
    = snd (serve s (gateway_request "deckNames" VUndefined)).
Proof.
  rewrite CallTool_listDecks. apply run_call_then_quiet.
  intros v. apply quiet_Array_join.
Qed.

Lemma run_listModels (arguments : value) (s : S) :
  calls (run serve (CallTool "listModels" arguments) s)
    = [gateway_request "modelNames" VUndefined] /\
  final (run serve (CallTool "listModels" arguments) s)
    = snd (serve s (gateway_request "modelNames" VUndefined)).
Proof.
  rewrite CallTool_listModels. apply run_call_then_quiet.
  intros v. apply quiet_convert.
Qed.

End ToolFacts.

Section RequestFacts.

(** The body of a request decides which gateway call it is; comparing
    bodies, whatever the parameters are. *)
Ltac distinct_bodies H :=
  apply (f_equal body) in H;
  match type of H with
  | context [gateway_request _ ?params] => destruct params
  end;
  cbn in H; discriminate H.

(** The request of a query tool is not the request of a tool that creates
    notes, whatever the parameters of the latter. *)
Lemma deckNames_not_mutating :
  ~ mutating (gateway_request "deckNames" VUndefined).
Proof. intros [params [H|H]]; distinct_bodies H. Qed.

Lemma modelNames_not_mutating :
  ~ mutating (gateway_request "modelNames" VUndefined).
Proof. intros [params [H|H]]; distinct_bodies H. Qed.

End RequestFacts.

(** C2, at the failing input: [getModel] called with the empty argument
    mapping does not fail; it issues the find-by-name call with a missing
    model name, and on an answer of the backend it returns a text about the
    model [undefined]. *)
Theorem C2_getModel_empty_arguments_reach_backend
    (S : Type) (serve : S -> request -> fetch_outcome * S) (s : S) :
  let rq := gateway_request "findModelsByName"
              (VObj [("modelNames", VArr [VUndefined])]) in
  let r := run serve (CallTool "getModel" (VObj [])) s in
  calls r = [rq] /\
  forall model : value,
    unwrap (fst (serve s rq)) = Ret model ->
    outcome r = inr ("Here is the undefined in the user's Anki collection: "
                       ++ stringified_text (JSON_stringify model)).
Proof.
  cbv zeta. rewrite CallTool_getModel_empty. split.
  - apply run_call_then_quiet. intros v. apply quiet_Ret.
  - intros model Hm. rewrite (run_call_Ret serve _ _ model) by exact Hm.
    reflexivity.
Qed.

(** What the guard of [getModel] does catch: a call without any argument
    mapping fails before any backend call. *)
Lemma getModel_absent_arguments_fail
    (S : Type) (serve : S -> request -> fetch_outcome * S) (s : S) :
  run serve (CallTool "getModel" VUndefined) s
  = mkResult (inl (Error "getModel requires a model name")) [] s.
Proof. reflexivity. Qed.

(** C6: [addNote] with the argument mapping [A] issues exactly one gateway
    call, of the action [addNote] with the parameters [{note: A}]; when the
    backend returns the numeric id [id], an integer that a number holds
    exactly, the tool returns the text that ends with [id], so the text
    contains it. *)
Theorem C6_addNote_wraps_arguments
    (S : Type) (serve : S -> request -> fetch_outcome * S) (s : S) (A : value) :
  let rq := gateway_request "addNote" (VObj [("note", A)]) in
  let r := run serve (CallTool "addNote" A) s in
  calls r = [rq] /\
  forall id : Z,
    exact_id id ->
    unwrap (fst (serve s rq)) = Ret (VNum (Int id)) ->
    outcome r = inr ("Created note with the following ID: "
                       ++ Number_toString (Int id)) /\
    exists text, outcome r = inr text /\ contains text (Number_toString (Int id)).
Proof.
  cbv zeta. rewrite CallTool_addNote. split.
  - apply run_call_then_quiet. intros v. apply quiet_convert.
  - intros id _ Hid. rewrite (run_call_Ret serve _ _ _ _ s Hid).
    cbn [run outcome ToString convert bind]. split; [reflexivity|].
    eexists. split; [reflexivity|].
    exists "Created note with the following ID: ", EmptyString.
    now rewrite append_nil_r.
Qed.

Lemma C6_addNote_wraps_arguments_witness :
  exact_id 123 /\
  unwrap (fst (sample_backend 0%Z
                 (gateway_request "addNote" (VObj [("note", sample_note)]))))
    = Ret (VNum (Int 123)) /\
  outcome (run sample_backend (CallTool "addNote" sample_note) 0%Z)
    = inr "Created note with the following ID: 123" /\
  exists text,
    outcome (run sample_backend (CallTool "addNote" sample_note) 0%Z) = inr text /\
    contains text "123".
Proof.
  assert (Hid : exact_id 123) by (vm_compute; discriminate).
  split; [exact Hid|]. split; [reflexivity|].
  exact (proj2 (C6_addNote_wraps_arguments Z sample_backend 0%Z sample_note)
           123%Z Hid eq_refl).
Defined.

(** C7, as the specification states it, fails in its first part: the
    parameters of the [addNotes] call are the whole argument mapping, the
    object whose [notes] property is the array, not the array itself. *)
Lemma C7_addNotes_params_are_not_the_array :
  sample_notes = VObj [("notes", VArr [sample_note; sample_note])] /\
  calls (run sample_backend (CallTool "addNotes" sample_notes) 0%Z)
    = [gateway_request "addNotes" sample_notes] /\
  gateway_request "addNotes" sample_notes
    <> gateway_request "addNotes" (VArr [sample_note; sample_note]).
Proof.
  split; [reflexivity|]. split; [reflexivity|].
  intros H. apply (f_equal body) in H. vm_compute in H. discriminate H.
Qed.

(** C7 (amended): [addNotes] issues exactly one gateway call, of the action
    [addNotes], whose parameters are the tool's argument mapping passed
    through as it is (the notes array is its [notes] property); when the
    backend returns the list of created note ids, integers that a number
    holds exactly, the tool returns the text that ends with these ids
    joined by a comma and a space. *)
Theorem C7_addNotes_passes_arguments_through
    (S : Type) (serve : S -> request -> fetch_outcome * S) (s : S)
    (arguments : value) :
  let rq := gateway_request "addNotes" arguments in
  let r := run serve (CallTool "addNotes" arguments) s in
  calls r = [rq] /\
  forall ids : list Z,
    Forall exact_id ids ->
    unwrap (fst (serve s rq)) = Ret (VArr (map (fun id => VNum (Int id)) ids)) ->
    outcome r = inr ("Created notes with the following IDs: "
                       ++ join ", " (map (fun id => Number_toString (Int id)) ids)).
Proof.
  cbv zeta. rewrite CallTool_addNotes. split.
  - apply run_call_then_quiet. intros v. apply quiet_Array_join.
  - intros ids _ Hids. rewrite (run_call_Ret serve _ _ _ _ s Hids).
    cbn [Array_join]. now rewrite element_text_numbers.
Qed.

Lemma C7_addNotes_passes_arguments_through_witness :
  Forall exact_id [123%Z; 124%Z] /\
  unwrap (fst (sample_backend 0%Z (gateway_request "addNotes" sample_notes)))
    = Ret (VArr (map (fun id => VNum (Int id)) [123%Z; 124%Z])) /\
  outcome (run sample_backend (CallTool "addNotes" sample_notes) 0%Z)
    = inr "Created notes with the following IDs: 123, 124".
Proof.
  assert (Hids : Forall exact_id [123%Z; 124%Z])
    by (repeat constructor; vm_compute; discriminate).
  split; [exact Hids|]. split; [reflexivity|].
  exact (proj2 (C7_addNotes_passes_arguments_through
                  Z sample_backend 0%Z sample_notes)
           [123%Z; 124%Z] Hids eq_refl).
Defined.

(** C8: [listDecks] and [listModels] each issue one gateway call, the query
    [deckNames], respectively [modelNames], which is not a call of a tool
    that creates notes; and on a backend that answers the query without
    changing its state, any number of calls in a row, from any state, yield
    the same output every time and leave the state as it was. *)
Theorem C8_list_tools_query_only
    (S : Type) (serve : S -> request -> fetch_outcome * S)
    (tool action : string) (arguments : value) :
  (tool = "listDecks" /\ action = "deckNames") \/
  (tool = "listModels" /\ action = "modelNames") ->
  (forall s : S,
      calls (run serve (CallTool tool arguments) s)
      = [gateway_request action VUndefined]) /\
  ~ mutating (gateway_request action VUndefined) /\
  (read_only_on serve (gateway_request action VUndefined) ->
   forall (s : S) (n : nat),
     repeat_run serve n (CallTool tool arguments) s
     = (repeat (outcome (run serve (CallTool tool arguments) s)) n, s)).
Proof.
  intros [[-> ->]|[-> ->]].
  - split; [intros s; apply run_listDecks|].
    split; [apply deckNames_not_mutating|].
    intros Hro s n. apply repeat_run_fixed.
    rewrite (proj2 (run_listDecks serve arguments s)). apply Hro.
  - split; [intros s; apply run_listModels|].
    split; [apply modelNames_not_mutating|].
    intros Hro s n. apply repeat_run_fixed.
    rewrite (proj2 (run_listModels serve arguments s)). apply Hro.
Qed.

Lemma sample_backend_deckNames_read_only :
  read_only_on sample_backend (gateway_request "deckNames" VUndefined).
Proof. intros s. reflexivity. Qed.

Lemma C8_list_tools_query_only_witness :
  ("listDecks" = "listDecks" /\ "deckNames" = "deckNames") /\
  read_only_on sample_backend (gateway_request "deckNames" VUndefined) /\
  repeat_run sample_backend 3 (CallTool "listDecks" (VObj [])) 5%Z
  = (repeat (inr "Here is a list of the decks in the user's Anki collection: Default, Spanish")
       3, 5%Z).
Proof.
  split; [split; reflexivity|].
  split; [exact sample_backend_deckNames_read_only|].
  exact (proj2 (proj2 (C8_list_tools_query_only
                         Z sample_backend "listDecks" "deckNames" (VObj [])
                         (or_introl (conj eq_refl eq_refl))))
           sample_backend_deckNames_read_only 5%Z 3%nat).
Defined.

(* ================================================================== *)
(** * The testable properties of the specification on concrete inputs *)
(* ================================================================== *)

Example listDecks_joins_names :
  run sample_backend (CallTool "listDecks" (VObj [])) 0%Z
  = mkResult
      (inr "Here is a list of the decks in the user's Anki collection: Default, Spanish")
      [gateway_request "deckNames" VUndefined] 0%Z.
Proof. reflexivity. Qed.

Example unknown_tool_fails_without_call :
  run sample_backend (CallTool "unknownTool" (VObj [])) 0%Z
  = mkResult (inl (Error "Unknown tool")) [] 0%Z.
Proof. reflexivity. Qed.

Example read_bogus_uri_fails :
  run sample_backend (ReadResource "bogus://x") 0%Z
  = mkResult (inl (Error "resource not found")) [] 0%Z.
Proof. reflexivity. Qed.

Example addNote_creates_one_note :
  run sample_backend (CallTool "addNote" sample_note) 0%Z
  = mkResult (inr "Created note with the following ID: 123")
      [gateway_request "addNote" (VObj [("note", sample_note)])] 1%Z.
Proof. reflexivity. Qed.

Example read_negative_and_hexadecimal_suffix :
  parseInt "-5" = Int (-5) /\ parseInt "0x1F" = Int 31 /\ parseInt "12abc" = Int 12.
Proof. repeat split. Qed.

Example offline_backend_fails_the_gateway :
  run offline_backend (ankiRequest "deckNames" VUndefined) tt
  = mkResult (inl FetchFailed) [gateway_request "deckNames" VUndefined] tt.
Proof. reflexivity. Qed.


(* ================================================================== *)
(** * The tool table and the dispatcher *)
(* ================================================================== *)

Section DispatchFacts.
Context {S : Type}.
Variable serve : S -> request -> fetch_outcome * S.

Lemma quiet_getProperty {B : Type} (v : value) (key : string) (k : value -> B) :
  quiet serve (x <- getProperty v key ;; Ret (k x)).
Proof. intros st. destruct v; split; reflexivity. Qed.

(** A gateway call followed by quiet steps: the traffic and how a failure
    of the call comes out. *)
Lemma run_single_call {B : Type} (action : string) (params : value)
      (k : value -> prog B) (s : S) :
  (forall v, quiet serve (k v)) ->
  calls (run serve (v <- ankiRequest action params ;; k v) s)
    = [gateway_request action params] /\
  final (run serve (v <- ankiRequest action params ;; k v) s)
    = snd (serve s (gateway_request action params)) /\
  forall e, unwrap (fst (serve s (gateway_request action params))) = Throw e ->
            outcome (run serve (v <- ankiRequest action params ;; k v) s) = inl e.
Proof.
  intros Hk.
  destruct (run_call_then_quiet serve action params k s Hk) as [Hc Hf].
  repeat split; try assumption.
  intros e He. now rewrite (run_call_Throw serve _ _ e) by exact He.
Qed.

End DispatchFacts.

(** The case [getModel] of the [switch], for an argument mapping and for
    another truthy value. *)
Lemma CallTool_getModel_object (props : list (string * value)) :
  CallTool "getModel" (VObj props)
  = (model <- ankiRequest "findModelsByName"
                (VObj [("modelNames",
                        VArr [match lookup "modelName" props with
                              | Some m => m
                              | None => VUndefined
                              end])]) ;;
     modelName <- convert (ToString (match lookup "modelName" props with
                                     | Some m => m
                                     | None => VUndefined
                                     end)) ;;
     Ret ("Here is the " ++ modelName
            ++ " in the user's Anki collection: "
            ++ stringified_text (JSON_stringify model))).
Proof. reflexivity. Qed.

(** X1: the names the tool listing advertises are pairwise distinct, and
    they are exactly the names the dispatcher knows: a call is turned down
    as an unknown tool if and only if its name is not listed. *)
Theorem listed_tools_are_the_dispatched_ones (name : string) (arguments : value) :
  NoDup (listed_names ListTools) /\
  (In name (listed_names ListTools) <->
   CallTool name arguments <> Throw (Error "Unknown tool")).
Proof.
  split.
  - cbn. repeat constructor; cbn; intuition discriminate.
  - split.
    + cbn. intros [<-|[<-|[<-|[<-|[<-|[]]]]]]; try (cbn; discriminate).
      unfold CallTool. cbn [String.eqb Ascii.eqb Bool.eqb].
      destruct (negb (ToBoolean arguments)); [discriminate|].
      destruct arguments; cbn; discriminate.
    + intros H. unfold CallTool in H. cbn.
      destruct (name =? "listDecks") eqn:E1;
        [apply String.eqb_eq in E1; auto|].
      destruct (name =? "listModels") eqn:E2;
        [apply String.eqb_eq in E2; auto|].
      destruct (name =? "getModel") eqn:E3;
        [apply String.eqb_eq in E3; auto|].
      destruct (name =? "addNotes") eqn:E4;
        [apply String.eqb_eq in E4; auto 6|].
      destruct (name =? "addNote") eqn:E5;
        [apply String.eqb_eq in E5; auto 6|].
      now contradiction H.
Qed.

(** X2: the traffic of a tool call.  Every call of a listed tool that gets
    past the dispatcher issues exactly one gateway call, the one of the
    tool's action with its parameters, and a failure of that call is the
    failure of the tool, unchanged; every other call ends with an error
    before any gateway call and leaves the backend as it was. *)
Theorem tool_call_traffic
    (S : Type) (serve : S -> request -> fetch_outcome * S) (s : S)
    (name : string) (arguments : value) :
  match tool_call name arguments with
  | Some (action, params) =>
      calls (run serve (CallTool name arguments) s)
        = [gateway_request action params] /\
      final (run serve (CallTool name arguments) s)
        = snd (serve s (gateway_request action params)) /\
      forall e,
        unwrap (fst (serve s (gateway_request action params))) = Throw e ->
        outcome (run serve (CallTool name arguments) s) = inl e
  | None =>
      calls (run serve (CallTool name arguments) s) = [] /\
      final (run serve (CallTool name arguments) s) = s /\
      exists msg, outcome (run serve (CallTool name arguments) s) = inl (Error msg)
  end.
Proof.
  unfold tool_call, CallTool.
  destruct (name =? "listDecks").
  { apply run_single_call. intros v. apply quiet_Array_join. }
  destruct (name =? "listModels").
  { apply run_single_call. intros v; cbn [getProperty bind]; apply quiet_convert. }
  destruct (name =? "getModel").
  { destruct arguments as [| |b|n|str|items|props];
      try (cbn; repeat split; eexists; reflexivity).
    - destruct b; [|cbn; repeat split; eexists; reflexivity].
      apply run_single_call. intros v; cbn [getProperty bind]; apply quiet_convert.
    - destruct n as [|z]; [cbn; repeat split; eexists; reflexivity|].
      cbn [ToBoolean]. destruct (negb (z =? 0)%Z);
        [|cbn; repeat split; eexists; reflexivity].
      apply run_single_call. intros v; cbn [getProperty bind]; apply quiet_convert.
    - cbn [ToBoolean]. destruct (negb (str =? EmptyString));
        [|cbn; repeat split; eexists; reflexivity].
      apply run_single_call. intros v; cbn [getProperty bind]; apply quiet_convert.
    - apply run_single_call. intros v; cbn [getProperty bind]; apply quiet_convert.
    - apply run_single_call. intros v; cbn [getProperty bind]; apply quiet_convert. }
  destruct (name =? "addNotes").
  { apply run_single_call. intros v. apply quiet_Array_join. }
  destruct (name =? "addNote").
  { apply run_single_call. intros v; cbn [getProperty bind]; apply quiet_convert. }
  cbn. repeat split. eexists. reflexivity.
Qed.

(* ================================================================== *)
(** * What the tools return *)
(* ================================================================== *)

Section TextFacts.

Lemma element_text_strings (names : list string) :
  sequence (map element_text (map VStr names)) = Some names.
Proof.
  induction names as [|x names IH]; cbn [map]; [reflexivity|].
  cbn [element_text ToString sequence]. now rewrite IH.
Qed.

(** The conversion of an array, in terms of its elements. *)
Lemma ToString_array (items : list value) :
  ToString (VArr items)
  = option_map (join ",") (sequence (map element_text items)).
Proof.
  cbn [ToString].
  set (elems := fix elems (l : list value) : option (list string) :=
                  match l with
                  | [] => Some []
                  | x :: rest =>
                      match
                        match x with
                        | VUndefined | VNull => Some EmptyString
                        | _ => ToString x
                        end,
                        elems rest
                      with
                      | Some t, Some ts => Some (t :: ts)
                      | _, _ => None
                      end
                  end).
  assert (H : elems items = sequence (map element_text items)).
  { induction items as [|x items IH]; [reflexivity|].
    cbn [map sequence]. change (elems (x :: items))
      with (match element_text x, elems items with
            | Some t, Some ts => Some (t :: ts)
            | _, _ => None
            end).
    rewrite IH. destruct (element_text x); [|reflexivity].
    destruct (sequence (map element_text items)); reflexivity. }
  rewrite H. destruct (sequence (map element_text items)); reflexivity.
Qed.

(** An array of strings in a template literal: the strings joined by a
    comma. *)
Lemma ToString_strings (names : list string) :
  ToString (VArr (map VStr names)) = Some (join "," names).
Proof. now rewrite ToString_array, element_text_strings. Qed.

Lemma element_text_created (ids : list (option Z)) :
  sequence (map element_text (map created_id ids))
  = Some (map created_id_text ids).
Proof.
  induction ids as [|[id|] ids IH]; cbn [map]; [reflexivity| |];
    cbn [created_id element_text ToString sequence]; now rewrite IH.
Qed.

End TextFacts.

(** X3: [getModel] with an argument mapping whose [modelName] is [m] asks
    the backend for the one model named [m], and when the gateway returns
    a model, the handler converts [m] to text: if the conversion goes
    through (it does for every string) the result is the sentence that
    names [m] and carries the serialized model; if it throws ([m] is an
    object that owns a [toString] property, or an array that holds one) the
    tool fails with a type error, after the call.  The numbers inside [m]
    and the model are integers that a number holds exactly. *)
Theorem getModel_asks_for_the_named_model
    (S : Type) (serve : S -> request -> fetch_outcome * S) (s : S)
    (props : list (string * value)) (m model : value) :
  lookup "modelName" props = Some m ->
  exact_numbers m = true ->
  exact_numbers model = true ->
  unwrap (fst (serve s (gateway_request "findModelsByName"
                          (VObj [("modelNames", VArr [m])])))) = Ret model ->
  run serve (CallTool "getModel" (VObj props)) s
  = mkResult
      (match ToString m with
       | Some name =>
           inr ("Here is the " ++ name ++ " in the user's Anki collection: "
                  ++ stringified_text (JSON_stringify model))
       | None => inl TypeError
       end)
      [gateway_request "findModelsByName" (VObj [("modelNames", VArr [m])])]
      (snd (serve s (gateway_request "findModelsByName"
                       (VObj [("modelNames", VArr [m])])))) /\
  (forall name : string,
      m = VStr name ->
      outcome (run serve (CallTool "getModel" (VObj props)) s)
      = inr ("Here is the " ++ name ++ " in the user's Anki collection: "
               ++ stringified_text (JSON_stringify model))).
Proof.
  intros Hm _ _ Hmodel. rewrite CallTool_getModel_object, Hm.
  rewrite (run_call_Ret serve _ _ model) by exact Hmodel.
  split.
  - destruct (ToString m); reflexivity.
  - intros name ->. reflexivity.
Qed.

Lemma getModel_asks_for_the_named_model_witness :
  lookup "modelName" [("modelName", VStr "Basic")] = Some (VStr "Basic") /\
  exact_numbers (VStr "Basic") = true /\
  exact_numbers basic_model = true /\
  outcome (run model_backend
             (CallTool "getModel" (VObj [("modelName", VStr "Basic")])) tt)
  = inr ("Here is the Basic in the user's Anki collection: "
           ++ stringified_text (JSON_stringify basic_model)).
Proof.
  split; [reflexivity|]. split; [reflexivity|]. split; [reflexivity|].
  exact (proj2 (getModel_asks_for_the_named_model unit model_backend tt
                  [("modelName", VStr "Basic")] (VStr "Basic") basic_model
                  eq_refl eq_refl eq_refl eq_refl)
           "Basic" eq_refl).
Defined.

(** X4: [listDecks] needs an array from the gateway whose elements convert
    to text.  On such an array it returns the fixed sentence followed by
    the element texts joined by a comma and a space, where a [null]
    element contributes nothing; an array of deck names always is such an
    array.  On anything that is no array, in particular on the [null]
    result of a backend error, and on an array with an element that cannot
    be converted, it fails with a type error, not with the backend's
    message.  The numbers inside the result are integers that a number
    holds exactly. *)
Theorem listDecks_needs_an_array
    (S : Type) (serve : S -> request -> fetch_outcome * S) (s : S)
    (arguments v : value) :
  unwrap (fst (serve s (gateway_request "deckNames" VUndefined))) = Ret v ->
  exact_numbers v = true ->
  outcome (run serve (CallTool "listDecks" arguments) s)
  = match v with
    | VArr items =>
        match sequence (map element_text items) with
        | Some texts =>
            inr ("Here is a list of the decks in the user's Anki collection: "
                   ++ join ", " texts)
        | None => inl TypeError
        end
    | _ => inl TypeError
    end /\
  (forall names : list string,
      v = VArr (map VStr names) ->
      outcome (run serve (CallTool "listDecks" arguments) s)
      = inr ("Here is a list of the decks in the user's Anki collection: "
               ++ join ", " names)).
Proof.
  intros Hv _. rewrite CallTool_listDecks.
  rewrite (run_call_Ret serve _ _ v) by exact Hv. split.
  - destruct v; try reflexivity.
    cbn [Array_join]. destruct (sequence (map element_text items)); reflexivity.
  - intros names ->. cbn [Array_join].
    now rewrite element_text_strings.
Qed.

Lemma listDecks_needs_an_array_witness :
  unwrap (fst (failing_backend "collection is not available" tt
                 (gateway_request "deckNames" VUndefined))) = Ret VNull /\
  exact_numbers VNull = true /\
  outcome (run (failing_backend "collection is not available")
             (CallTool "listDecks" (VObj [])) tt)
  = inl TypeError.
Proof.
  split; [reflexivity|]. split; [reflexivity|].
  exact (proj1 (listDecks_needs_an_array unit
                  (failing_backend "collection is not available") tt
                  (VObj []) VNull eq_refl eq_refl)).
Defined.

(** X5: [listModels] converts whatever the gateway returns to text, as a
    template literal does.  When the conversion goes through, the tool
    returns the fixed sentence followed by that text: model names come out
    joined by a comma without a space, and the [null] result of a backend
    error comes out as the word [null] instead of a failure.  When the
    conversion throws, the tool fails with a type error.  The numbers
    inside the result are integers that a number holds exactly. *)
Theorem listModels_prints_any_result
    (S : Type) (serve : S -> request -> fetch_outcome * S) (s : S)
    (arguments v : value) :
  unwrap (fst (serve s (gateway_request "modelNames" VUndefined))) = Ret v ->
  exact_numbers v = true ->
  outcome (run serve (CallTool "listModels" arguments) s)
    = match ToString v with
      | Some text =>
          inr ("Here is the list of note models in the user's Anki collection: "
                 ++ text)
      | None => inl TypeError
      end /\
  (forall names : list string,
      v = VArr (map VStr names) ->
      outcome (run serve (CallTool "listModels" arguments) s)
      = inr ("Here is the list of note models in the user's Anki collection: "
               ++ join "," names)) /\
  (v = VNull ->
   outcome (run serve (CallTool "listModels" arguments) s)
   = inr "Here is the list of note models in the user's Anki collection: null").
Proof.
  intros Hv _. rewrite CallTool_listModels.
  rewrite (run_call_Ret serve _ _ v) by exact Hv.
  split; [destruct (ToString v); reflexivity|]. split.
  - intros names ->. now rewrite ToString_strings.
  - intros ->. reflexivity.
Qed.

Lemma listModels_prints_any_result_witness :
  unwrap (fst (failing_backend "collection is not available" tt
                 (gateway_request "modelNames" VUndefined))) = Ret VNull /\
  exact_numbers VNull = true /\
  outcome (run (failing_backend "collection is not available")
             (CallTool "listModels" (VObj [])) tt)
  = inr "Here is the list of note models in the user's Anki collection: null".
Proof.
  split; [reflexivity|]. split; [reflexivity|].
  exact (proj2 (proj2 (listModels_prints_any_result unit
                         (failing_backend "collection is not available") tt
                         (VObj []) VNull eq_refl eq_refl))
           eq_refl).
Defined.

(** X6: when the backend turns a note down, answering [addNote] with an
    error and a [null] result, the tool does not fail: it returns the text
    of a created note whose id is [null], whatever the error message and
    the arguments were. *)
Theorem addNote_reports_success_on_backend_error
    (S : Type) (serve : S -> request -> fetch_outcome * S) (s : S)
    (arguments : value) (message : string) :
  fst (serve s (gateway_request "addNote" (VObj [("note", arguments)])))
    = reply_error message ->
  outcome (run serve (CallTool "addNote" arguments) s)
  = inr "Created note with the following ID: null".
Proof.
  intros Herr. rewrite CallTool_addNote.
  rewrite (run_call_Ret serve _ _ VNull) by (rewrite Herr; reflexivity).
  reflexivity.
Qed.

Lemma addNote_reports_success_on_backend_error_witness :
  fst (failing_backend "cannot create note because it is a duplicate" tt
         (gateway_request "addNote" (VObj [("note", sample_note)])))
    = reply_error "cannot create note because it is a duplicate" /\
  outcome (run (failing_backend "cannot create note because it is a duplicate")
             (CallTool "addNote" sample_note) tt)
  = inr "Created note with the following ID: null".
Proof.
  split; [reflexivity|].
  exact (addNote_reports_success_on_backend_error unit
           (failing_backend "cannot create note because it is a duplicate") tt
           sample_note "cannot create note because it is a duplicate" eq_refl).
Defined.

(** X7: [addNotes] needs an array from the gateway and fails with a type
    error on anything else.  When the backend reports a batch in which some
    notes were not created ([null] in place of an id), the ids being
    integers that a number holds exactly, the text lists the ids of the
    created notes and leaves an empty place, between the separators, for
    each note that was not created. *)
Theorem addNotes_lists_created_ids
    (S : Type) (serve : S -> request -> fetch_outcome * S) (s : S)
    (arguments v : value) :
  unwrap (fst (serve s (gateway_request "addNotes" arguments))) = Ret v ->
  ((forall items, v <> VArr items) ->
   outcome (run serve (CallTool "addNotes" arguments) s) = inl TypeError) /\
  (forall ids : list (option Z),
      Forall exact_created ids ->
      v = VArr (map created_id ids) ->
      outcome (run serve (CallTool "addNotes" arguments) s)
      = inr ("Created notes with the following IDs: "
               ++ join ", " (map created_id_text ids))).
Proof.
  intros Hv. rewrite CallTool_addNotes.
  rewrite (run_call_Ret serve _ _ v) by exact Hv. split.
  - intros Hnot. destruct v; try reflexivity. now contradiction (Hnot items).
  - intros ids _ ->. cbn [Array_join].
    now rewrite element_text_created.
Qed.

Lemma addNotes_lists_created_ids_witness :
  unwrap (fst (partial_backend tt (gateway_request "addNotes" sample_notes)))
    = Ret (VArr (map created_id [Some 123%Z; None])) /\
  Forall exact_created [Some 123%Z; None] /\
  outcome (run partial_backend (CallTool "addNotes" sample_notes) tt)
  = inr "Created notes with the following IDs: 123, ".
Proof.
  assert (Hids : Forall exact_created [Some 123%Z; None]).
  { constructor; [vm_compute; discriminate|]. constructor; [exact I|constructor]. }
  split; [reflexivity|]. split; [exact Hids|].
  exact (proj2 (addNotes_lists_created_ids unit partial_backend tt sample_notes
                  (VArr (map created_id [Some 123%Z; None])) eq_refl)
           [Some 123%Z; None] Hids eq_refl).
Defined.

(* ================================================================== *)
(** * Listing and reading together *)
(* ================================================================== *)

Section CatalogFacts.
Context {S : Type}.
Variable serve : S -> request -> fetch_outcome * S.

(** The listing of two id mappings. *)
Lemma run_ListResources_id_mappings (s : S) (decks models : list (string * Z)) :
  unwrap (fst (serve s (gateway_request "deckNamesAndIds" VUndefined)))
    = Ret (id_mapping decks) ->
  unwrap (fst (serve (snd (serve s (gateway_request "deckNamesAndIds" VUndefined)))
                 (gateway_request "modelNamesAndIds" VUndefined)))
    = Ret (id_mapping models) ->
  outcome (run serve ListResources s)
  = inr (map (entry_of "anki://decks/") decks
           ++ map (entry_of "anki://models/") models)%list.
Proof.
  intros HD HM. unfold ListResources.
  rewrite (run_call_Ret serve _ _ _ _ s HD). cbn zeta.
  rewrite (run_call_Ret serve _ _ _ _ _ HM).
  unfold id_mapping. cbn [Object_entries bind].
  now rewrite !entries_of_id_mapping.
Qed.

(** The part of the listing that follows the two gateway calls. *)
Lemma run_ListResources_returned (s : S) (decks models : value) :
  unwrap (fst (serve s (gateway_request "deckNamesAndIds" VUndefined)))
    = Ret decks ->
  unwrap (fst (serve (snd (serve s (gateway_request "deckNamesAndIds" VUndefined)))
                 (gateway_request "modelNamesAndIds" VUndefined)))
    = Ret models ->
  run serve ListResources s
  = let r :=
      run serve
        (deckEntries <- Object_entries decks ;;
         deckResources <-
           convert (sequence (map (listing_entry "anki://decks/") deckEntries)) ;;
         modelEntries <- Object_entries models ;;
         modelResources <-
           convert (sequence (map (listing_entry "anki://models/") modelEntries)) ;;
         Ret (deckResources ++ modelResources)%list)
        (snd (serve (snd (serve s (gateway_request "deckNamesAndIds" VUndefined)))
                (gateway_request "modelNamesAndIds" VUndefined))) in
    mkResult (outcome r)
      (gateway_request "deckNamesAndIds" VUndefined
         :: gateway_request "modelNamesAndIds" VUndefined :: calls r)
      (final r).
Proof.
  intros HD HM. unfold ListResources.
  rewrite (run_call_Ret serve _ _ _ _ s HD). cbn zeta.
  rewrite (run_call_Ret serve _ _ _ _ _ HM). reflexivity.
Qed.

End CatalogFacts.

Section EntryFacts.

(** [Object.entries] throws on [null] and [undefined] and on nothing
    else. *)
Lemma Object_entries_settled (v : value) :
  (is_nullish v = true /\ Object_entries v = Throw TypeError) \/
  (is_nullish v = false /\ exists l, Object_entries v = Ret l).
Proof. destruct v; cbn; eauto. Qed.

(** The entries of a mapping all become listing entries exactly when the
    value of each converts to text. *)
Lemma listing_entries_Some (category : string) (l : list (string * value)) :
  (exists rs, sequence (map (listing_entry category) l) = Some rs) <->
  Forall (fun e => ToString (snd e) <> None) l.
Proof.
  induction l as [|[k x] l IH]; cbn [map sequence].
  - split; [constructor | eauto].
  - unfold listing_entry at 1. cbn [snd].
    destruct (ToString x) as [t|] eqn:Ex; cbn [option_map].
    + destruct (sequence (map (listing_entry category) l)) as [rs|].
      * split; [|eauto]. intros _. constructor.
        -- cbn [snd]. rewrite Ex. discriminate.
        -- apply IH. eauto.
      * split.
        -- intros [rs' H]. discriminate H.
        -- intros H. inversion H as [|? ? _ Hl]; subst.
           apply IH in Hl. destruct Hl as [rs' H']. discriminate H'.
    + split.
      * intros [rs H]. discriminate H.
      * intros H. inversion H as [|? ? Hx _]; subst. cbn [snd] in Hx.
        now contradiction Hx.
Qed.

(** The listing entries of a category carry the category's prefix. *)
Lemma listing_entries_prefix (category : string) (l : list (string * value)) :
  forall rs,
    sequence (map (listing_entry category) l) = Some rs ->
    Forall (fun r => exists t, uri r = category ++ t) rs.
Proof.
  induction l as [|[k x] l IH]; cbn [map sequence]; intros rs H.
  - injection H as <-. constructor.
  - unfold listing_entry at 1 in H.
    destruct (ToString x) as [t|]; cbn [option_map] in H; [|discriminate H].
    destruct (sequence (map (listing_entry category) l)) as [rs'|];
      [|discriminate H].
    injection H as <-. constructor; [cbn; eauto | now apply IH].
Qed.

End EntryFacts.

Section ParseFacts.
Open Scope N_scope.

(** [parseInt] on a string that starts with a decimal digit, when a leading
    zero is not followed by the [x] of a hexadecimal literal. *)
Lemma parseInt_decimal_prefix (d : N) (tail : string) :
  d < 10 ->
  (d = 0 -> match tail with
            | String c _ => c <> "x"%char /\ c <> "X"%char
            | EmptyString => True
            end) ->
  parseInt (String (digit_char d) tail)
  = match scan_digits 10 (String (digit_char d) tail) None with
    | None => NaN
    | Some m => Int (Z.of_N m)
    end.
Proof.
  intros Hd Hzero.
  assert (E : d = 0 \/ d = 1 \/ d = 2 \/ d = 3 \/ d = 4 \/
              d = 5 \/ d = 6 \/ d = 7 \/ d = 8 \/ d = 9) by lia.
  destruct E as [-> | E].
  - specialize (Hzero eq_refl). destruct tail as [|c rest]; [reflexivity|].
    destruct Hzero as [Hx HX].
    destruct c as [[] [] [] [] [] [] [] []];
      try reflexivity; exfalso; (now apply Hx) || (now apply HX).
  - repeat (destruct E as [-> | E]; [reflexivity|]). now subst.
Qed.

(** The decimal digits of [n] followed by a character that is no digit:
    [parseInt] reads [n] and ignores the rest. *)
Lemma parseInt_ignores_rest (n : N) (c : ascii) (rest : string) :
  digit_value 10 c = None ->
  (n = 0 -> c <> "x"%char /\ c <> "X"%char) ->
  parseInt (N_to_decimal n ++ String c rest) = Int (Z.of_N n).
Proof.
  intros Hc Hx.
  destruct (N_to_decimal_spec n) as (d & ds & k & Heq & Hd & Hzero & Hscan).
  rewrite Heq. cbn [append].
  rewrite parseInt_decimal_prefix.
  - change (String (digit_char d) (ds ++ String c rest))
      with (String (digit_char d) ds ++ String c rest).
    rewrite Hscan. cbn [scan_digits]. rewrite Hc.
    cbn [acc_value]. do 2 f_equal; lia.
  - assumption.
  - intros Hd0. destruct (Hzero Hd0) as [Hn ->]. cbn [append]. now apply Hx.
Qed.

End ParseFacts.

Lemma ReadResource_deck_integer (z : Z) :
  ReadResource ("anki://decks/" ++ Number_toString (Int z))
  = Ret [json_block ("anki://decks/" ++ Number_toString (Int z))
           (JSON_stringify (VObj [("deckId", VNum (Int z))]))].
Proof. now rewrite ReadResource_deck, parseInt_Number_toString. Qed.

Lemma ReadResource_model_integer (z : Z) :
  ReadResource ("anki://models/" ++ Number_toString (Int z))
  = (models <- ankiRequest "findModelsById"
                 (VObj [("modelIds", VArr [VNum (Int z)])]) ;;
     Ret [json_block ("anki://models/" ++ Number_toString (Int z))
            (JSON_stringify models)]).
Proof. now rewrite ReadResource_model, parseInt_Number_toString. Qed.

(** X8: how the listing fails.  A failure of the first enumeration call
    ends the listing after that one call; a failure of the second ends it
    after the two calls.  When both calls return, the listing issues these
    two calls and no other; it fails when one of the two results is [null]
    or [undefined], as the result of a backend error is; a failure at this
    stage is always a type error; and on two results that have entries, the
    listing succeeds exactly when the value of every entry converts to
    text. *)
Theorem listing_failures
    (S : Type) (serve : S -> request -> fetch_outcome * S) (s : S) :
  let rqD := gateway_request "deckNamesAndIds" VUndefined in
  let rqM := gateway_request "modelNamesAndIds" VUndefined in
  let s1 := snd (serve s rqD) in
  let s2 := snd (serve s1 rqM) in
  (forall e,
      unwrap (fst (serve s rqD)) = Throw e ->
      run serve ListResources s = mkResult (inl e) [rqD] s1) /\
  (forall decks e,
      unwrap (fst (serve s rqD)) = Ret decks ->
      unwrap (fst (serve s1 rqM)) = Throw e ->
      run serve ListResources s = mkResult (inl e) [rqD; rqM] s2) /\
  (forall decks models,
      unwrap (fst (serve s rqD)) = Ret decks ->
      unwrap (fst (serve s1 rqM)) = Ret models ->
      calls (run serve ListResources s) = [rqD; rqM] /\
      final (run serve ListResources s) = s2 /\
      (is_nullish decks || is_nullish models = true ->
       outcome (run serve ListResources s) = inl TypeError) /\
      (succeeded (outcome (run serve ListResources s)) = false ->
       outcome (run serve ListResources s) = inl TypeError) /\
      (forall dl ml,
          Object_entries decks = Ret dl ->
          Object_entries models = Ret ml ->
          (succeeded (outcome (run serve ListResources s)) = true <->
           Forall (fun e => ToString (snd e) <> None) (dl ++ ml)%list))).
Proof.
  cbv zeta. split; [|split].
  - intros e He. unfold ListResources.
    now rewrite (run_call_Throw serve _ _ e) by exact He.
  - intros decks e HD HM. unfold ListResources.
    rewrite (run_call_Ret serve _ _ _ _ s HD). cbn zeta.
    now rewrite (run_call_Throw serve _ _ e) by exact HM.
  - intros decks models HD HM.
    rewrite (run_ListResources_returned serve s decks models HD HM).
    destruct (Object_entries_settled decks) as [[Hn HE]|[Hn [dl HE]]];
      rewrite HE, Hn.
    { cbn. split; [reflexivity|]. split; [reflexivity|].
      split; [reflexivity|]. split; [reflexivity|].
      intros dl0 ml0 E. discriminate E. }
    cbn [bind orb].
    destruct (sequence (map (listing_entry "anki://decks/") dl)) as [ds|] eqn:ED.
    2: { cbn. split; [reflexivity|]. split; [reflexivity|].
         split; [reflexivity|]. split; [reflexivity|].
         intros dl0 ml0 [= <-] _. split; [discriminate|].
         intros H. apply Forall_app in H. destruct H as [H _].
         apply (listing_entries_Some "anki://decks/") in H.
         destruct H as [rs H]. rewrite H in ED. discriminate ED. }
    cbn [convert bind].
    destruct (Object_entries_settled models) as [[Hm HE']|[Hm [ml HE']]];
      rewrite HE', Hm.
    { cbn. split; [reflexivity|]. split; [reflexivity|].
      split; [reflexivity|]. split; [reflexivity|].
      intros dl0 ml0 _ E. discriminate E. }
    cbn [bind].
    destruct (sequence (map (listing_entry "anki://models/") ml)) as [ms|] eqn:EM.
    + cbn. split; [reflexivity|]. split; [reflexivity|].
      split; [discriminate|]. split; [discriminate|].
      intros dl0 ml0 [= <-] [= <-]. split; [|reflexivity].
      intros _. apply Forall_app. split.
      * apply (listing_entries_Some "anki://decks/"). eauto.
      * apply (listing_entries_Some "anki://models/"). eauto.
    + cbn. split; [reflexivity|]. split; [reflexivity|].
      split; [reflexivity|]. split; [reflexivity|].
      intros dl0 ml0 [= <-] [= <-]. split; [discriminate|].
      intros H. apply Forall_app in H. destruct H as [_ H].
      apply (listing_entries_Some "anki://models/") in H.
      destruct H as [rs H]. rewrite H in EM. discriminate EM.
Qed.

Lemma listing_failures_witness :
  unwrap (fst (failing_backend "collection is not available" tt
                 (gateway_request "deckNamesAndIds" VUndefined))) = Ret VNull /\
  outcome (run (failing_backend "collection is not available") ListResources tt)
  = inl TypeError.
Proof.
  split; [reflexivity|].
  exact (proj1 (proj2 (proj2
           (proj2 (proj2 (listing_failures unit
                            (failing_backend "collection is not available") tt))
              VNull VNull eq_refl eq_refl)))
           eq_refl).
Defined.

(** X9: listing and reading compose on decks.  Every deck the backend
    enumerates, with an id a number holds exactly, appears in the listing
    under its name with a URI that [read] resolves, on any backend and
    without a call, to the JSON object whose [deckId] is that id. *)
Theorem listed_deck_reads_back
    (S : Type) (serve : S -> request -> fetch_outcome * S) (s : S)
    (decks models : list (string * Z)) (k : string) (id : Z) :
  unwrap (fst (serve s (gateway_request "deckNamesAndIds" VUndefined)))
    = Ret (id_mapping decks) ->
  unwrap (fst (serve (snd (serve s (gateway_request "deckNamesAndIds" VUndefined)))
                 (gateway_request "modelNamesAndIds" VUndefined)))
    = Ret (id_mapping models) ->
  In (k, id) decks ->
  (Z.abs id <= Z.of_N MAX_SAFE_INTEGER)%Z ->
  exists (listing : list resource) (r : resource),
    outcome (run serve ListResources s) = inr listing /\
    In r listing /\ name r = k /\
    forall (S' : Type) (serve' : S' -> request -> fetch_outcome * S') (s' : S'),
      run serve' (ReadResource (uri r)) s'
      = mkResult
          (inr [json_block (uri r)
                  (Some (deckId_text (Number_toString (Int id))))])
          [] s'.
Proof.
  intros HD HM Hin _.
  eexists. exists (entry_of "anki://decks/" (k, id)).
  split; [apply (run_ListResources_id_mappings serve s decks models HD HM)|].
  split; [apply in_or_app; left; now apply (in_map (entry_of "anki://decks/"))|].
  split; [reflexivity|].
  intros S' serve' s'. cbn [entry_of uri snd].
  rewrite ReadResource_deck_integer, stringify_deckId. reflexivity.
Qed.

Lemma listed_deck_reads_back_witness :
  In ("Spanish", 1700000000000%Z)
     [("Default", 1%Z); ("Spanish", 1700000000000%Z)] /\
  (Z.abs 1700000000000 <= Z.of_N MAX_SAFE_INTEGER)%Z /\
  exists (listing : list resource) (r : resource),
    outcome (run sample_backend ListResources 0%Z) = inr listing /\
    In r listing /\ name r = "Spanish" /\
    forall (S' : Type) (serve' : S' -> request -> fetch_outcome * S') (s' : S'),
      run serve' (ReadResource (uri r)) s'
      = mkResult
          (inr [json_block (uri r)
                  (Some (deckId_text (Number_toString (Int 1700000000000))))])
          [] s'.
Proof.
  assert (Hin : In ("Spanish", 1700000000000%Z)
                   [("Default", 1%Z); ("Spanish", 1700000000000%Z)])
    by (right; left; reflexivity).
  assert (Hsafe : (Z.abs 1700000000000 <= Z.of_N MAX_SAFE_INTEGER)%Z)
    by (vm_compute; discriminate).
  split; [exact Hin|]. split; [exact Hsafe|].
  exact (listed_deck_reads_back Z sample_backend 0%Z
           [("Default", 1%Z); ("Spanish", 1700000000000%Z)]
           [("Basic", 1600000000000%Z)] "Spanish" 1700000000000%Z
           eq_refl eq_refl Hin Hsafe).
Defined.

(** X10: reading the models URI of an id that a number holds exactly asks
    the backend for the models with that one id, in exactly one gateway
    call; the content block carries the serialized answer under the
    requested URI, and a failure of the call is the failure of the read. *)
Theorem read_model_asks_by_id
    (S : Type) (serve : S -> request -> fetch_outcome * S) (s : S) (id : Z) :
  (Z.abs id <= Z.of_N MAX_SAFE_INTEGER)%Z ->
  let uri := "anki://models/" ++ Number_toString (Int id) in
  let rq := gateway_request "findModelsById"
              (VObj [("modelIds", VArr [VNum (Int id)])]) in
  let r := run serve (ReadResource uri) s in
  calls r = [rq] /\
  final r = snd (serve s rq) /\
  (forall v, unwrap (fst (serve s rq)) = Ret v ->
             outcome r = inr [json_block uri (JSON_stringify v)]) /\
  (forall e, unwrap (fst (serve s rq)) = Throw e -> outcome r = inl e).
Proof.
  intros _. cbv zeta. rewrite ReadResource_model_integer.
  destruct (run_single_call serve "findModelsById"
              (VObj [("modelIds", VArr [VNum (Int id)])])
              (fun models =>
                 Ret [json_block ("anki://models/" ++ Number_toString (Int id))
                        (JSON_stringify models)]) s)
    as (Hc & Hf & He); [intros v; apply quiet_Ret|].
  split; [exact Hc|]. split; [exact Hf|]. split; [|exact He].
  intros v Hv. now rewrite (run_call_Ret serve _ _ v) by exact Hv.
Qed.

Lemma read_model_asks_by_id_witness :
  (Z.abs 1600000000000 <= Z.of_N MAX_SAFE_INTEGER)%Z /\
  calls (run sample_backend (ReadResource "anki://models/1600000000000") 0%Z)
  = [gateway_request "findModelsById"
       (VObj [("modelIds", VArr [VNum (Int 1600000000000)])])].
Proof.
  assert (Hsafe : (Z.abs 1600000000000 <= Z.of_N MAX_SAFE_INTEGER)%Z)
    by (vm_compute; discriminate).
  split; [exact Hsafe|].
  exact (proj1 (read_model_asks_by_id Z sample_backend 0%Z 1600000000000%Z Hsafe)).
Defined.

(** X11: listing and reading compose on note types.  Every note type the
    backend enumerates, with an id a number holds exactly, appears in the
    listing under its name with a URI whose [read] issues the find-by-id
    call for exactly that id. *)
Theorem listed_model_is_fetched_by_its_id
    (S : Type) (serve : S -> request -> fetch_outcome * S) (s : S)
    (decks models : list (string * Z)) (k : string) (id : Z) :
  unwrap (fst (serve s (gateway_request "deckNamesAndIds" VUndefined)))
    = Ret (id_mapping decks) ->
  unwrap (fst (serve (snd (serve s (gateway_request "deckNamesAndIds" VUndefined)))
                 (gateway_request "modelNamesAndIds" VUndefined)))
    = Ret (id_mapping models) ->
  In (k, id) models ->
  (Z.abs id <= Z.of_N MAX_SAFE_INTEGER)%Z ->
  exists (listing : list resource) (r : resource),
    outcome (run serve ListResources s) = inr listing /\
    In r listing /\ name r = k /\
    forall (S' : Type) (serve' : S' -> request -> fetch_outcome * S') (s' : S'),
      calls (run serve' (ReadResource (uri r)) s')
      = [gateway_request "findModelsById"
           (VObj [("modelIds", VArr [VNum (Int id)])])].
Proof.
  intros HD HM Hin _.
  eexists. exists (entry_of "anki://models/" (k, id)).
  split; [apply (run_ListResources_id_mappings serve s decks models HD HM)|].
  split; [apply in_or_app; right; now apply (in_map (entry_of "anki://models/"))|].
  split; [reflexivity|].
  intros S' serve' s'. cbn [entry_of uri snd].
  rewrite ReadResource_model_integer.
  apply run_single_call. intros v. apply quiet_Ret.
Qed.

Lemma listed_model_is_fetched_by_its_id_witness :
  In ("Basic", 1600000000000%Z) [("Basic", 1600000000000%Z)] /\
  (Z.abs 1600000000000 <= Z.of_N MAX_SAFE_INTEGER)%Z /\
  exists (listing : list resource) (r : resource),
    outcome (run sample_backend ListResources 0%Z) = inr listing /\
    In r listing /\ name r = "Basic" /\
    forall (S' : Type) (serve' : S' -> request -> fetch_outcome * S') (s' : S'),
      calls (run serve' (ReadResource (uri r)) s')
      = [gateway_request "findModelsById"
           (VObj [("modelIds", VArr [VNum (Int 1600000000000)])])].
Proof.
  assert (Hin : In ("Basic", 1600000000000%Z) [("Basic", 1600000000000%Z)])
    by (left; reflexivity).
  assert (Hsafe : (Z.abs 1600000000000 <= Z.of_N MAX_SAFE_INTEGER)%Z)
    by (vm_compute; discriminate).
  split; [exact Hin|]. split; [exact Hsafe|].
  exact (listed_model_is_fetched_by_its_id Z sample_backend 0%Z
           [("Default", 1%Z); ("Spanish", 1700000000000%Z)]
           [("Basic", 1600000000000%Z)] "Basic" 1600000000000%Z
           eq_refl eq_refl Hin Hsafe).
Defined.

(** X12: [read] is lenient about the suffix of a decks URI.  Text after the
    digits is ignored: the digits of [n] followed by a character that is no
    digit (and is not the [x] that would start a hexadecimal literal after
    a lone zero) read as the deck [n].  And a minus sign is accepted: the
    URI of a negative id reads as the deck of that negative id. *)
Theorem read_deck_is_lenient
    (S : Type) (serve : S -> request -> fetch_outcome * S) (s : S) :
  (forall (n : N) (c : ascii) (rest : string),
      (n <= MAX_SAFE_INTEGER)%N ->
      digit_value 10 c = None ->
      (n = 0%N -> c <> "x"%char /\ c <> "X"%char) ->
      run serve (ReadResource ("anki://decks/" ++ N_to_decimal n ++ String c rest)) s
      = mkResult
          (inr [json_block ("anki://decks/" ++ N_to_decimal n ++ String c rest)
                  (Some (deckId_text (N_to_decimal n)))])
          [] s) /\
  (forall z : Z,
      (- Z.of_N MAX_SAFE_INTEGER <= z < 0)%Z ->
      run serve (ReadResource ("anki://decks/" ++ Number_toString (Int z))) s
      = mkResult
          (inr [json_block ("anki://decks/" ++ Number_toString (Int z))
                  (Some (deckId_text (Number_toString (Int z))))])
          [] s).
Proof.
  split.
  - intros n c rest _ Hc Hx.
    rewrite ReadResource_deck, parseInt_ignores_rest by assumption.
    rewrite stringify_deckId. unfold Number_toString.
    destruct (Z.ltb_spec (Z.of_N n) 0) as [Hneg|_]; [lia|].
    now rewrite N2Z.id.
  - intros z _. now rewrite ReadResource_deck_integer, stringify_deckId.
Qed.

Lemma read_deck_is_lenient_witness :
  ((42 <= MAX_SAFE_INTEGER)%N /\
   digit_value 10 "a" = None /\
   run sample_backend (ReadResource "anki://decks/42abc") 0%Z
   = mkResult
       (inr [json_block "anki://decks/42abc" (Some (deckId_text "42"))]) [] 0%Z) /\
  ((- Z.of_N MAX_SAFE_INTEGER <= -5 < 0)%Z /\
   run sample_backend (ReadResource "anki://decks/-5") 0%Z
   = mkResult
       (inr [json_block "anki://decks/-5" (Some (deckId_text "-5"))]) [] 0%Z).
Proof.
  assert (H42 : (42 <= MAX_SAFE_INTEGER)%N) by (vm_compute; discriminate).
  assert (H5 : (- Z.of_N MAX_SAFE_INTEGER <= -5 < 0)%Z) by (vm_compute; split; [discriminate | reflexivity]).
  split.
  - split; [exact H42|]. split; [reflexivity|].
    exact (proj1 (read_deck_is_lenient Z sample_backend 0%Z)
             42%N "a"%char "bc" H42 eq_refl
             (fun H : 42%N = 0%N => ltac:(discriminate H))).
  - split; [exact H5|].
    exact (proj2 (read_deck_is_lenient Z sample_backend 0%Z) (-5)%Z H5).
Defined.

(* ================================================================== *)
(** * The traffic of the whole server *)
(* ================================================================== *)

Section Discipline.

Lemma disciplined_Ret {A : Type} (n : nat) (a : A) : disciplined n (Ret a).
Proof. split; exact I. Qed.

Lemma disciplined_Throw {A : Type} (n : nat) (e : exn) :
  disciplined n (@Throw A e).
Proof. split; exact I. Qed.

Lemma gateway_request_to_backend (action : string) (params : value) :
  to_backend (gateway_request action params).
Proof. repeat split. cbn. discriminate. Qed.

(** A gateway call counts for one request. *)
Lemma disciplined_call {B : Type} (n : nat) (action : string) (params : value)
      (k : value -> prog B) :
  (forall v, disciplined n (k v)) ->
  disciplined (S n) (v <- ankiRequest action params ;; k v).
Proof.
  intros Hk. split; cbn [ankiRequest bind fetches_satisfy at_most].
  - split; [apply gateway_request_to_backend|].
    intros o. destruct (unwrap_settled o) as [[v ->]|[e ->]]; cbn [bind].
    + apply Hk.
    + exact I.
  - intros o. destruct (unwrap_settled o) as [[v ->]|[e ->]]; cbn [bind].
    + apply Hk.
    + exact I.
Qed.

(** The steps that only compute count for nothing. *)
Lemma disciplined_Object_entries {B : Type} (n : nat) (v : value)
      (k : list (string * value) -> prog B) :
  (forall l, disciplined n (k l)) ->
  disciplined n (l <- Object_entries v ;; k l).
Proof. intros Hk. destruct v; cbn; try apply Hk; apply disciplined_Throw. Qed.

Lemma disciplined_convert {A B : Type} (n : nat) (x : option A)
      (k : A -> prog B) :
  (forall a, disciplined n (k a)) ->
  disciplined n (a <- convert x ;; k a).
Proof. intros Hk. destruct x; cbn; [apply Hk | apply disciplined_Throw]. Qed.

Lemma disciplined_Array_join {B : Type} (n : nat) (v : value) (sep : string)
      (k : string -> prog B) :
  (forall j, disciplined n (k j)) ->
  disciplined n (j <- Array_join v sep ;; k j).
Proof.
  intros Hk. destruct v; cbn [Array_join bind]; try apply disciplined_Throw.
  destruct (sequence (map element_text items)); cbn [bind];
    [apply Hk | apply disciplined_Throw].
Qed.

Lemma disciplined_getProperty {B : Type} (n : nat) (v : value) (key : string)
      (k : value -> prog B) :
  (forall x, disciplined n (k x)) ->
  disciplined n (x <- getProperty v key ;; k x).
Proof. intros Hk. destruct v; cbn; try apply Hk; apply disciplined_Throw. Qed.

Lemma disciplined_ListResources : disciplined 2 ListResources.
Proof.
  unfold ListResources.
  apply disciplined_call. intros decks.
  apply disciplined_call. intros models.
  apply disciplined_Object_entries. intros deckEntries.
  apply disciplined_convert. intros deckResources.
  apply disciplined_Object_entries. intros modelEntries.
  apply disciplined_convert. intros modelResources.
  apply disciplined_Ret.
Qed.

Lemma disciplined_Earlier_ListResources : disciplined 1 Earlier.ListResources.
Proof.
  unfold Earlier.ListResources.
  apply disciplined_call. intros decks.
  apply disciplined_Object_entries. intros deckEntries.
  apply disciplined_convert. intros deckResources.
  apply disciplined_Ret.
Qed.

Lemma disciplined_ReadResource (uri : string) : disciplined 1 (ReadResource uri).
Proof.
  unfold ReadResource.
  destruct (startsWith uri "anki://decks/"); [apply disciplined_Ret|].
  destruct (startsWith uri "anki://models/"); [|apply disciplined_Throw].
  apply disciplined_call. intros models. apply disciplined_Ret.
Qed.

Lemma disciplined_CallTool (name : string) (arguments : value) :
  disciplined 1 (CallTool name arguments).
Proof.
  unfold CallTool.
  destruct (name =? "listDecks").
  { apply disciplined_call. intros decks.
    apply disciplined_Array_join. intros joined. apply disciplined_Ret. }
  destruct (name =? "listModels").
  { apply disciplined_call. intros models.
    apply disciplined_convert. intros models'. apply disciplined_Ret. }
  destruct (name =? "getModel").
  { destruct (negb (ToBoolean arguments)); [apply disciplined_Throw|].
    apply disciplined_getProperty. intros modelName.
    apply disciplined_call. intros model.
    apply disciplined_getProperty. intros modelName'.
    apply disciplined_convert. intros modelName''.
    apply disciplined_Ret. }
  destruct (name =? "addNotes").
  { apply disciplined_call. intros createdNoteIds.
    apply disciplined_Array_join. intros joined. apply disciplined_Ret. }
  destruct (name =? "addNote").
  { apply disciplined_call. intros createdNoteId.
    apply disciplined_convert. intros createdNoteId'. apply disciplined_Ret. }
  apply disciplined_Throw.
Qed.

Context {S : Type}.
Variable serve : S -> request -> fetch_outcome * S.

(** What the discipline of a program says of every run of it. *)
Lemma disciplined_run {A : Type} (p : prog A) :
  forall (n : nat) (s : S),
    disciplined n p ->
    Forall to_backend (calls (run serve p s)) /\
    List.length (calls (run serve p s)) <= n.
Proof.
  induction p as [a|e|rq k IH]; intros n s [Hf Hn]; cbn [run calls List.length].
  - split; [constructor | lia].
  - split; [constructor | lia].
  - cbn [fetches_satisfy at_most] in Hf, Hn. destruct Hf as [Hrq Hf].
    destruct n as [|n]; [contradiction|].
    destruct (IH (fst (serve s rq)) n (snd (serve s rq))
                (conj (Hf _) (Hn _))) as [Hall Hlen].
    split; [constructor; assumption | lia].
Qed.

End Discipline.

(** X13: the traffic of the server.  On every backend and from every
    state, each request a handler issues is a POST to the fixed local
    endpoint with a body; the listing issues at most two requests, and a
    read and a tool call, whatever the URI, the tool name and the arguments
    are, at most one; the listing of the earlier revision issues at most
    one. *)
Theorem handlers_keep_to_the_gateway
    (S : Type) (serve : S -> request -> fetch_outcome * S) (s : S) :
  (Forall to_backend (calls (run serve ListResources s)) /\
   List.length (calls (run serve ListResources s)) <= 2) /\
  (forall uri : string,
      Forall to_backend (calls (run serve (ReadResource uri) s)) /\
      List.length (calls (run serve (ReadResource uri) s)) <= 1) /\
  (forall (name : string) (arguments : value),
      Forall to_backend (calls (run serve (CallTool name arguments) s)) /\
      List.length (calls (run serve (CallTool name arguments) s)) <= 1) /\
  (Forall to_backend (calls (run serve Earlier.ListResources s)) /\
   List.length (calls (run serve Earlier.ListResources s)) <= 1).
Proof.
  split; [apply disciplined_run, disciplined_ListResources|].
  split; [intros uri; apply disciplined_run, disciplined_ReadResource|].
  split; [intros name arguments; apply disciplined_run, disciplined_CallTool|].
  apply disciplined_run, disciplined_Earlier_ListResources.
Qed.

(* ================================================================== *)
(** * The earlier revision against the current one *)
(* ================================================================== *)

(** X14: the listing of the earlier revision is the deck part of the
    current listing.  Whenever the current listing succeeds, the earlier
    one, run on the same backend from the same state, succeeds after the
    single deck enumeration call, and what it returns is the current
    listing without its model entries: the entries of the current listing
    whose URI starts with the decks prefix, in the same order. *)
Theorem earlier_listing_is_the_deck_part
    (S : Type) (serve : S -> request -> fetch_outcome * S) (s : S)
    (listing : list resource) :
  outcome (run serve ListResources s) = inr listing ->
  run serve Earlier.ListResources s
  = mkResult
      (inr (filter (fun r => startsWith (uri r) "anki://decks/") listing))
      [gateway_request "deckNamesAndIds" VUndefined]
      (snd (serve s (gateway_request "deckNamesAndIds" VUndefined))).
Proof.
  intros Hok.
  destruct (unwrap_settled
              (fst (serve s (gateway_request "deckNamesAndIds" VUndefined))))
    as [[decks HD]|[e HD]].
  2: { unfold ListResources in Hok.
       rewrite (run_call_Throw serve _ _ e) in Hok by exact HD. discriminate Hok. }
  destruct (unwrap_settled
              (fst (serve (snd (serve s (gateway_request "deckNamesAndIds" VUndefined)))
                      (gateway_request "modelNamesAndIds" VUndefined))))
    as [[models HM]|[e HM]].
  2: { unfold ListResources in Hok.
       rewrite (run_call_Ret serve _ _ _ _ s HD) in Hok. cbn zeta in Hok.
       rewrite (run_call_Throw serve _ _ e) in Hok by exact HM. discriminate Hok. }
  rewrite (run_ListResources_returned serve s decks models HD HM) in Hok.
  unfold Earlier.ListResources.
  rewrite (run_call_Ret serve _ _ _ _ s HD).
  change (fun '(name, id) =>
            option_map
              (fun id' => {| uri := "anki://decks/" ++ id'; name := name |})
              (ToString id))
    with (listing_entry "anki://decks/").
  destruct (Object_entries_settled decks) as [[_ HE]|[_ [dl HE]]];
    rewrite HE in Hok |- *; [discriminate Hok|].
  cbn [bind] in Hok |- *.
  destruct (sequence (map (listing_entry "anki://decks/") dl)) as [ds|] eqn:ED;
    [|discriminate Hok].
  cbn [convert bind] in Hok |- *.
  destruct (Object_entries_settled models) as [[_ HE']|[_ [ml HE']]];
    rewrite HE' in Hok; [discriminate Hok|].
  cbn [bind] in Hok.
  destruct (sequence (map (listing_entry "anki://models/") ml)) as [ms|] eqn:EM;
    [|discriminate Hok].
  cbn in Hok. injection Hok as <-.
  cbn [run outcome calls final]. f_equal. f_equal.
  rewrite filter_app.
  assert (Hds : filter (fun r => startsWith (uri r) "anki://decks/") ds = ds).
  { apply listing_entries_prefix in ED. clear - ED.
    induction ED as [|r rs [t Hr] _ IH]; [reflexivity|].
    cbn [filter]. rewrite Hr, startsWith_app, IH. reflexivity. }
  assert (Hms : filter (fun r => startsWith (uri r) "anki://decks/") ms = []).
  { apply listing_entries_prefix in EM. clear - EM.
    induction EM as [|r rs [t Hr] _ IH]; [reflexivity|].
    cbn [filter]. rewrite Hr, models_uri_not_deck, IH. reflexivity. }
  rewrite Hds, Hms. now rewrite app_nil_r.
Qed.

Lemma earlier_listing_is_the_deck_part_witness :
  outcome (run sample_backend ListResources 0%Z)
  = inr [ {| uri := "anki://decks/1"; name := "Default" |};
          {| uri := "anki://decks/1700000000000"; name := "Spanish" |};
          {| uri := "anki://models/1600000000000"; name := "Basic" |} ] /\
  run sample_backend Earlier.ListResources 0%Z
  = mkResult
      (inr [ {| uri := "anki://decks/1"; name := "Default" |};
             {| uri := "anki://decks/1700000000000"; name := "Spanish" |} ])
      [gateway_request "deckNamesAndIds" VUndefined] 0%Z.
Proof.
  assert (H : outcome (run sample_backend ListResources 0%Z)
              = inr [ {| uri := "anki://decks/1"; name := "Default" |};
                      {| uri := "anki://decks/1700000000000"; name := "Spanish" |};
                      {| uri := "anki://models/1600000000000"; name := "Basic" |} ])
    by reflexivity.
  split; [exact H|].
  exact (earlier_listing_is_the_deck_part Z sample_backend 0%Z _ H).
Defined.

(** X15: the tool names of the earlier revision are dead names.  Its own
    dispatcher turns every call down as an unknown tool, before any backend
    call, and so does the current dispatcher for each name the earlier
    revision lists. *)
Theorem earlier_tool_names_are_unknown (name : string) (arguments : value) :
  In name (listed_names Earlier.ListTools) ->
  CallTool name arguments = Throw (Error "Unknown tool") /\
  forall (S : Type) (serve : S -> request -> fetch_outcome * S) (s : S),
    run serve (Earlier.CallTool name arguments) s
    = mkResult (inl (Error "Unknown tool")) [] s.
Proof.
  cbn. intros [<-|[<-|[<-|[]]]]; split; reflexivity.
Qed.

Lemma earlier_tool_names_are_unknown_witness :
  In "create_note" (listed_names Earlier.ListTools) /\
  CallTool "create_note" sample_note = Throw (Error "Unknown tool").
Proof.
  assert (Hin : In "create_note" (listed_names Earlier.ListTools))
    by (right; right; left; reflexivity).
  split; [exact Hin|].
  exact (proj1 (earlier_tool_names_are_unknown "create_note" sample_note Hin)).
Defined.

Example unprintable_result_fails_listModels :
  ToString (VObj [("toString", VNum (Int 1))]) = None /\
  outcome (run (fun (s : unit) (_ : request) =>
                  (reply (VObj [("toString", VNum (Int 1))]), s))
             (CallTool "listModels" (VObj [])) tt)
  = inl TypeError.
Proof. split; reflexivity. Qed.

Example unprintable_id_fails_the_listing :
  outcome (run (fun (s : unit) (_ : request) =>
                  (reply (VObj [("A", VObj [("toString", VNum (Int 1))])]), s))
             ListResources tt)
  = inl TypeError.
Proof. reflexivity. Qed.
